(** * Dynamic bonding curve SDK: curve construction and fee parameters

    A shallow embedding of the configuration-building helpers of the
    dynamic-bonding-curve SDK (helpers/common.ts, helpers/build.ts and
    constants.ts) together with the properties the specification states
    about them.

    Modelling conventions.
    - A [BN] (bn.js) is an unbounded signed integer: [Z].  [BN.div] and
      [BN.divn] truncate toward zero: [Z.quot].
    - A JavaScript [number] that the code uses as a count, a basis-point
      value, a duration or a whole token amount is a [Z]; the embedding
      covers integral arguments inside the safe-integer range, where the
      floating-point operations of the source are exact.
    - A [throw] is the [Err] constructor of [result]; statements are
      sequenced with the bind of that monad.
    - decimal.js values are kept abstract: the code is embedded over an
      interface ([Numeric]) of the operations it calls, and the
      theorems of the generic sections hold for every implementation of
      that interface.  The concrete evaluations and the square-root price
      round trip run on a model of the library at its default settings
      ([DecimalJs]).
    - The modules math/curve and helpers/utils are imported by the
      embedded files; their functions are the fields of the interfaces
      [CurveMath] and [Utils]. *)

From Stdlib Require Import ZArith List String Bool Lia Reals Lra.
Import ListNotations.
Open Scope string_scope.
Open Scope list_scope.
Open Scope Z_scope.

(** ** Errors *)

Inductive result (A : Type) : Type :=
| Ok (a : A)
| Err (msg : string).
Arguments Ok {A} a.
Arguments Err {A} msg.

Definition bind {A B : Type} (r : result A) (k : A -> result B) : result B :=
  match r with
  | Ok a => k a
  | Err m => Err m
  end.

Notation "x <- r ;; k" := (bind r (fun x => k))
  (at level 61, r at next level, right associativity).
Notation "' p <- r ;; k" := (bind r (fun p => k))
  (at level 61, p pattern, r at next level, right associativity).

Definition isOk {A : Type} (r : result A) : bool :=
  match r with Ok _ => true | Err _ => false end.

(** [throwIf c msg]: the statement [if (c) throw new Error(msg)]. *)
Definition throwIf (c : bool) (msg : string) : result unit :=
  if c then Err msg else Ok tt.

(** ** Constants (constants.ts) *)

Definition MIN_SQRT_PRICE : Z := 4295048016.
Definition MAX_SQRT_PRICE : Z := 79226673521066979257578248091.
Definition RESOLUTION : Z := 64.
Definition ONE_Q64 : Z := Z.shiftl 1 RESOLUTION.
Definition FEE_DENOMINATOR : Z := 1000000000.
Definition MIN_FEE_BPS : Z := 25.
Definition MAX_FEE_BPS : Z := 9900.
Definition MIN_FEE_NUMERATOR : Z := 2500000.
Definition MAX_FEE_NUMERATOR : Z := 990000000.
Definition BASIS_POINT_MAX : Z := 10000.
Definition SWAP_BUFFER_PERCENTAGE : Z := 25.
Definition MAX_RATE_LIMITER_DURATION_IN_SECONDS : Z := 43200.
Definition MAX_RATE_LIMITER_DURATION_IN_SLOTS : Z := 108000.
Definition DYNAMIC_FEE_FILTER_PERIOD_DEFAULT : Z := 10.
Definition DYNAMIC_FEE_DECAY_PERIOD_DEFAULT : Z := 120.
Definition DYNAMIC_FEE_REDUCTION_FACTOR_DEFAULT : Z := 5000.
Definition BIN_STEP_BPS_DEFAULT : Z := 1.
Definition BIN_STEP_BPS_U128_DEFAULT : Z := 1844674407370955.
Definition MAX_PRICE_CHANGE_BPS_DEFAULT : Z := 1500.

(** ** Enumerations (types.ts) *)

Inductive ActivationType := Slot | Timestamp.
Inductive CollectFeeMode := QuoteToken | OutputToken.
Inductive DammV2DynamicFeeMode := Disabled | Enabled.
Inductive MigrationOption := MET_DAMM | MET_DAMM_V2 | NO_MIGRATION.
Inductive BaseFeeMode := FeeSchedulerLinear | FeeSchedulerExponential | RateLimiter.
Inductive MigrationFeeOption :=
| FixedBps25 | FixedBps30 | FixedBps100 | FixedBps200 | FixedBps400 | FixedBps600
| Customizable.
Inductive Rounding := Up | Down.

Definition BaseFeeMode_eqb (a b : BaseFeeMode) : bool :=
  match a, b with
  | FeeSchedulerLinear, FeeSchedulerLinear
  | FeeSchedulerExponential, FeeSchedulerExponential
  | RateLimiter, RateLimiter => true
  | _, _ => false
  end.

(** ** Rate limiter window *)

(** [checkRateLimiterApplied]: the four conjuncts of the source, in order. *)
Definition checkRateLimiterApplied (baseFeeMode : BaseFeeMode)
    (swapBaseForQuote : bool)
    (currentPoint activationPoint maxLimiterDuration : Z) : bool :=
  BaseFeeMode_eqb baseFeeMode RateLimiter
  && negb swapBaseForQuote
  && (currentPoint >=? activationPoint)
  && (currentPoint <=? activationPoint + maxLimiterDuration).

(** ** Migrated pool fee *)

Record MigratedPoolFee := mkMigratedPoolFee {
  mpf_collectFeeMode : Z;
  mpf_dynamicFee : Z;
  mpf_poolFeeBps : Z
}.

Definition defaultFeeParams : MigratedPoolFee :=
  {| mpf_collectFeeMode := 0; mpf_dynamicFee := 0; mpf_poolFeeBps := 0 |}.

(** The third argument is optional in the source ([migratedPoolFee?]); the
    function hands back whatever it was given, [undefined] included, so the
    result is an [option] too. *)
Definition getMigratedPoolFeeParams (migrationOption : MigrationOption)
    (migrationFeeOption : MigrationFeeOption)
    (migratedPoolFee : option MigratedPoolFee) : option MigratedPoolFee :=
  match migrationOption with
  | MET_DAMM => Some defaultFeeParams
  | MET_DAMM_V2 =>
      match migrationFeeOption with
      | Customizable => migratedPoolFee
      | _ => Some defaultFeeParams
      end
  | NO_MIGRATION => Some defaultFeeParams
  end.

(** ** Interfaces of the imported libraries and modules *)

(** decimal.js, and the two places where the source computes with
    JavaScript doubles before entering decimal.js or bn.js. *)
Class Numeric := {
  Decimal : Type;
  (** [new Decimal(s)] for the decimal literal [m * 10^e]; integers and
      [BN.toString()] are the case [e = 0]. *)
  D_lit : Z -> Z -> Decimal;
  D_add : Decimal -> Decimal -> Decimal;
  D_sub : Decimal -> Decimal -> Decimal;
  D_mul : Decimal -> Decimal -> Decimal;
  D_div : Decimal -> Decimal -> Decimal;
  D_sqrt : Decimal -> Decimal;
  D_pow : Decimal -> Decimal -> Decimal;
  D_floor : Decimal -> Decimal;
  D_isNeg : Decimal -> bool;
  (** [new BN(d.toFixed())]; bn.js rejects what is not a digit string. *)
  BN_ofFixed : Decimal -> result Z;
  (** [new Decimal((bps / BASIS_POINT_MAX + 1).toString())]. *)
  D_priceRatio : Z -> Decimal;
  (** [new BN(BASIS_POINT_MAX * (1 - Math.pow(min / max, 1 / n)))]. *)
  exponentialReductionFactor : Z -> Z -> Z -> result Z
}.

Definition D_ofZ `{Numeric} (z : Z) : Decimal := D_lit z 0.

(** math/curve *)
Class CurveMath := {
  getDeltaAmountBaseUnsigned : Z -> Z -> Z -> Rounding -> result Z;
  getDeltaAmountQuoteUnsigned : Z -> Z -> Z -> Rounding -> result Z;
  getInitialLiquidityFromDeltaBase : Z -> Z -> Z -> result Z;
  getInitialLiquidityFromDeltaQuote : Z -> Z -> Z -> result Z;
  getNextSqrtPriceFromInput : Z -> Z -> Z -> bool -> result Z
}.

(** helpers/utils *)
Class Utils `{Numeric} := {
  bpsToFeeNumerator : Z -> Z;
  convertToLamports : Z -> Z -> Z;
  fromDecimalToBN : Decimal -> result Z;
  convertDecimalToBN : Decimal -> result Z
}.

(** ** bn.js operations with a failure case *)

(** [a.div(b)]: truncating division; bn.js asserts a non-zero divisor. *)
Definition BN_div (a b : Z) : result Z :=
  if b =? 0 then Err "Assertion failed" else Ok (Z.quot a b).

(** [a.divn(n)]: as [div], for a divisor of at most 26 bits. *)
Definition BN_divn (a n : Z) : result Z :=
  if (n =? 0) || (67108863 <? Z.abs n) then Err "Assertion failed"
  else Ok (Z.quot a n).

(** [a.divmod(b)]: truncated quotient and the remainder of the same sign
    as [a]. *)
Definition BN_divmod (a b : Z) : result (Z * Z) :=
  if b =? 0 then Err "Assertion failed" else Ok (Z.quot a b, Z.rem a b).

(** [a.shln(n)] and [a.shrn(n)]: bn.js asserts a non-negative receiver. *)
Definition BN_shln (a n : Z) : result Z :=
  if a <? 0 then Err "Assertion failed" else Ok (Z.shiftl a n).

Definition BN_shrn (a n : Z) : result Z :=
  if a <? 0 then Err "Assertion failed" else Ok (Z.shiftr a n).

(** [a.toNumber()]: defined up to 53 bits. *)
Definition BN_toNumber (a : Z) : result Z :=
  if Z.abs a <? 2 ^ 53 then Ok a
  else Err "Number can only safely store up to 53 bits".

(** ** Records (types.ts) *)

Record LiquidityDistributionParameters := mkPoint {
  sqrtPrice : Z;
  liquidity : Z
}.

Record LockedVestingParameters := mkLockedVesting {
  amountPerPeriod : Z;
  cliffDurationFromMigrationTime : Z;
  frequency : Z;
  numberOfPeriod : Z;
  cliffUnlockAmount : Z
}.

Record BaseFee := mkBaseFee {
  cliffFeeNumerator : Z;
  firstFactor : Z;
  secondFactor : Z;
  thirdFactor : Z;
  baseFeeMode : BaseFeeMode
}.

Record DynamicFeeParameters := mkDynamicFee {
  binStep : Z;
  binStepU128 : Z;
  filterPeriod : Z;
  decayPeriod : Z;
  reductionFactor : Z;
  maxVolatilityAccumulator : Z;
  variableFeeControl : Z
}.

Record Tokenomics := mkTokenomics {
  bondingCurveSupply : Z;
  migrationSupply : Z;
  leftoverSupply : Z;
  lockedVestingSupply : Z
}.

Record CurveResult := mkCurveResult {
  cr_isOk : bool;
  cr_sqrtStartPrice : Z;
  cr_curve : list LiquidityDistributionParameters
}.

Record RateLimiterParam := mkRateLimiterParam {
  rl_baseFeeBps : Z;
  rl_feeIncrementBps : Z;
  rl_referenceAmount : Z;
  rl_maxLimiterDuration : Z
}.

Record FeeSchedulerParam := mkFeeSchedulerParam {
  fs_startingFeeBps : Z;
  fs_endingFeeBps : Z;
  fs_numberOfPeriod : Z;
  fs_totalDuration : Z
}.

Record BaseFeeParams := mkBaseFeeParams {
  bfp_baseFeeMode : BaseFeeMode;
  bfp_rateLimiterParam : option RateLimiterParam;
  bfp_feeSchedulerParam : option FeeSchedulerParam
}.

(** ** helpers/common.ts *)

Section Common.
Context `{NU : Numeric} {CM : CurveMath} {UT : Utils}.

Definition getTotalVestingAmount (lockedVesting : LockedVestingParameters) : Z :=
  cliffUnlockAmount lockedVesting
  + amountPerPeriod lockedVesting * numberOfPeriod lockedVesting.

Definition getPriceFromSqrtPrice (sqrtPrice tokenBaseDecimal tokenQuoteDecimal : Z)
    : Decimal :=
  let sqrtPriceDecimal := D_ofZ sqrtPrice in
  let lamportPrice :=
    D_div (D_mul sqrtPriceDecimal sqrtPriceDecimal)
          (D_pow (D_ofZ 2) (D_ofZ 128)) in
  D_mul lamportPrice
        (D_pow (D_ofZ 10) (D_ofZ (tokenBaseDecimal - tokenQuoteDecimal))).

(** [price] is the decimal that the caller's string denotes.
    [10 ** (tokenADecimal - tokenBDecimal)] is a power of ten with at most
    a few digits, which [new Decimal] reads back exactly. *)
Definition getSqrtPriceFromPrice (price : Decimal) (tokenADecimal tokenBDecimal : Z)
    : result Z :=
  let decimalPrice := price in
  let adjustedByDecimals :=
    D_div decimalPrice (D_lit 1 (tokenADecimal - tokenBDecimal)) in
  let sqrtValue := D_sqrt adjustedByDecimals in
  let sqrtValueQ64 := D_mul sqrtValue (D_pow (D_ofZ 2) (D_ofZ 64)) in
  BN_ofFixed (D_floor sqrtValueQ64).

(** [marketCap] is the value of [new Decimal(marketCap)]. *)
Definition getSqrtPriceFromMarketCap (marketCap : Decimal)
    (totalSupply tokenBaseDecimal tokenQuoteDecimal : Z) : result Z :=
  let price := D_div marketCap (D_ofZ totalSupply) in
  getSqrtPriceFromPrice price tokenBaseDecimal tokenQuoteDecimal.

(** The [for] loop of [getBaseTokenForSwap]; [lowerSqrtPrice] is
    [sqrtStartPrice] at [i = 0] and the previous point afterwards. *)
Fixpoint getBaseTokenForSwap_from (lowerSqrtPrice sqrtMigrationPrice : Z)
    (curve : list LiquidityDistributionParameters) (totalAmount : Z)
    : result Z :=
  match curve with
  | [] => Ok totalAmount
  | c :: rest =>
      if sqrtPrice c >? sqrtMigrationPrice then
        deltaAmount <- getDeltaAmountBaseUnsigned lowerSqrtPrice
                         sqrtMigrationPrice (liquidity c) Up ;;
        Ok (totalAmount + deltaAmount)
      else
        deltaAmount <- getDeltaAmountBaseUnsigned lowerSqrtPrice
                         (sqrtPrice c) (liquidity c) Up ;;
        getBaseTokenForSwap_from (sqrtPrice c) sqrtMigrationPrice rest
          (totalAmount + deltaAmount)
  end.

Definition getBaseTokenForSwap (sqrtStartPrice sqrtMigrationPrice : Z)
    (curve : list LiquidityDistributionParameters) : result Z :=
  getBaseTokenForSwap_from sqrtStartPrice sqrtMigrationPrice curve 0.

Definition getMigrationQuoteAmountFromMigrationQuoteThreshold
    (migrationQuoteThreshold : Decimal) (migrationFeePercent : Z) : Decimal :=
  D_div (D_mul migrationQuoteThreshold
               (D_sub (D_ofZ 100) (D_ofZ migrationFeePercent)))
        (D_ofZ 100).

Definition getMigrationQuoteThresholdFromMigrationQuoteAmount
    (migrationQuoteAmount migrationFeePercent : Decimal) : Decimal :=
  D_div (D_mul migrationQuoteAmount (D_ofZ 100))
        (D_sub (D_ofZ 100) migrationFeePercent).

Definition getMigrationQuoteAmount
    (migrationMarketCap percentageSupplyOnMigration : Decimal) : Decimal :=
  D_div (D_mul migrationMarketCap percentageSupplyOnMigration) (D_ofZ 100).

(** The last two branches of the source are the same computation; the
    final [else] (an option outside the enumeration) has no counterpart. *)
Definition getMigrationBaseToken (migrationQuoteAmount sqrtMigrationPrice : Z)
    (migrationOption : MigrationOption) : result Z :=
  match migrationOption with
  | MET_DAMM =>
      let price := sqrtMigrationPrice * sqrtMigrationPrice in
      quote <- BN_shln migrationQuoteAmount 128 ;;
      ' (baseDiv, mod_) <- BN_divmod quote price ;;
      Ok (if negb (mod_ =? 0) then baseDiv + 1 else baseDiv)
  | MET_DAMM_V2 | NO_MIGRATION =>
      liquidity <- getInitialLiquidityFromDeltaQuote migrationQuoteAmount
                     MIN_SQRT_PRICE sqrtMigrationPrice ;;
      getDeltaAmountBaseUnsigned sqrtMigrationPrice MAX_SQRT_PRICE liquidity Up
  end.

Definition getLiquidity (baseAmount quoteAmount minSqrtPrice maxSqrtPrice : Z)
    : result Z :=
  liquidityFromBase <- getInitialLiquidityFromDeltaBase baseAmount
                         maxSqrtPrice minSqrtPrice ;;
  liquidityFromQuote <- getInitialLiquidityFromDeltaQuote quoteAmount
                          minSqrtPrice maxSqrtPrice ;;
  Ok (Z.min liquidityFromBase liquidityFromQuote).

Definition getFirstCurve (migrationSqrtPrice migrationBaseAmount swapAmount
    migrationQuoteThreshold migrationFeePercent : Z)
    : result (Z * list LiquidityDistributionParameters) :=
  let migrationSqrPriceDecimal := D_ofZ migrationSqrtPrice in
  let migrationBaseAmountDecimal := D_ofZ migrationBaseAmount in
  let swapAmountDecimal := D_ofZ swapAmount in
  let migrationFeePercentDecimal := D_ofZ migrationFeePercent in
  let denominator :=
    D_div (D_mul swapAmountDecimal
                 (D_sub (D_ofZ 100) migrationFeePercentDecimal))
          (D_ofZ 100) in
  let sqrtStartPriceDecimal :=
    D_div (D_mul migrationSqrPriceDecimal migrationBaseAmountDecimal)
          denominator in
  sqrtStartPrice <- BN_ofFixed (D_floor sqrtStartPriceDecimal) ;;
  liquidity <- getLiquidity swapAmount migrationQuoteThreshold
                 sqrtStartPrice migrationSqrtPrice ;;
  Ok (sqrtStartPrice,
      [ {| sqrtPrice := migrationSqrtPrice; liquidity := liquidity |} ]).

(** The [for] loop of [getMigrationThresholdPrice], from [i = 1]; it
    returns the price reached and the amount left. *)
Fixpoint getMigrationThresholdPrice_from (nextSqrtPrice amountLeft : Z)
    (curve : list LiquidityDistributionParameters) : result (Z * Z) :=
  match curve with
  | [] => Ok (nextSqrtPrice, amountLeft)
  | c :: rest =>
      maxAmount <- getDeltaAmountQuoteUnsigned nextSqrtPrice (sqrtPrice c)
                     (liquidity c) Up ;;
      if maxAmount >? amountLeft then
        next <- getNextSqrtPriceFromInput nextSqrtPrice (liquidity c)
                  amountLeft false ;;
        Ok (next, 0)
      else
        getMigrationThresholdPrice_from (sqrtPrice c) (amountLeft - maxAmount) rest
  end.

Definition getMigrationThresholdPrice (migrationThreshold sqrtStartPrice : Z)
    (curve : list LiquidityDistributionParameters) : result Z :=
  match curve with
  | [] => Err "Curve is empty"
  | c0 :: rest =>
      totalAmount <- getDeltaAmountQuoteUnsigned sqrtStartPrice (sqrtPrice c0)
                       (liquidity c0) Up ;;
      if totalAmount >? migrationThreshold then
        getNextSqrtPriceFromInput sqrtStartPrice (liquidity c0)
          migrationThreshold false
      else
        ' (nextSqrtPrice, amountLeft) <-
            getMigrationThresholdPrice_from (sqrtPrice c0)
              (migrationThreshold - totalAmount) rest ;;
        _ <- throwIf (negb (amountLeft =? 0)) "Not enough liquidity" ;;
        Ok nextSqrtPrice
  end.

Definition getSwapAmountWithBuffer (swapBaseAmount sqrtStartPrice : Z)
    (curve : list LiquidityDistributionParameters) : result Z :=
  let swapAmountBuffer :=
    swapBaseAmount + Z.quot (swapBaseAmount * SWAP_BUFFER_PERCENTAGE) 100 in
  maxBaseAmountOnCurve <- getBaseTokenForSwap sqrtStartPrice MAX_SQRT_PRICE curve ;;
  Ok (Z.min swapAmountBuffer maxBaseAmountOnCurve).

Definition getTotalSupplyFromCurve (migrationQuoteThreshold sqrtStartPrice : Z)
    (curve : list LiquidityDistributionParameters)
    (lockedVesting : LockedVestingParameters)
    (migrationOption : MigrationOption) (leftover migrationFeePercent : Z)
    : result Z :=
  sqrtMigrationPrice <- getMigrationThresholdPrice migrationQuoteThreshold
                          sqrtStartPrice curve ;;
  swapBaseAmount <- getBaseTokenForSwap sqrtStartPrice sqrtMigrationPrice curve ;;
  swapBaseAmountBuffer <- getSwapAmountWithBuffer swapBaseAmount
                            sqrtStartPrice curve ;;
  let migrationQuoteAmount :=
    getMigrationQuoteAmountFromMigrationQuoteThreshold
      (D_ofZ migrationQuoteThreshold) migrationFeePercent in
  migrationQuoteAmountBN <- fromDecimalToBN migrationQuoteAmount ;;
  migrationBaseAmount <- getMigrationBaseToken migrationQuoteAmountBN
                           sqrtMigrationPrice migrationOption ;;
  let totalVestingAmount := getTotalVestingAmount lockedVesting in
  Ok (swapBaseAmountBuffer + migrationBaseAmount + totalVestingAmount + leftover).


Definition getFeeSchedulerParams (startingBaseFeeBps endingBaseFeeBps : Z)
    (baseFeeMode : BaseFeeMode) (numberOfPeriod totalDuration : Z)
    : result BaseFee :=
  if startingBaseFeeBps =? endingBaseFeeBps then
    _ <- throwIf (negb (numberOfPeriod =? 0) || negb (totalDuration =? 0))
           "numberOfPeriod and totalDuration must both be zero" ;;
    Ok {| cliffFeeNumerator := bpsToFeeNumerator startingBaseFeeBps;
          firstFactor := 0;
          secondFactor := 0;
          thirdFactor := 0;
          baseFeeMode := FeeSchedulerLinear |}
  else
    _ <- throwIf (numberOfPeriod <=? 0)
           "Total periods must be greater than zero" ;;
    _ <- throwIf (startingBaseFeeBps >? MAX_FEE_BPS)
           "startingBaseFeeBps exceeds maximum allowed value" ;;
    _ <- throwIf (endingBaseFeeBps >? startingBaseFeeBps)
           "endingBaseFeeBps bps must be less than or equal to startingBaseFeeBps bps" ;;
    _ <- throwIf ((numberOfPeriod =? 0) || (totalDuration =? 0))
           "numberOfPeriod and totalDuration must both greater than zero" ;;
    let maxBaseFeeNumerator := bpsToFeeNumerator startingBaseFeeBps in
    let minBaseFeeNumerator := bpsToFeeNumerator endingBaseFeeBps in
    let periodFrequency := Z.quot totalDuration numberOfPeriod in
    reductionFactor <-
      match baseFeeMode with
      | FeeSchedulerLinear =>
          let totalReduction := maxBaseFeeNumerator - minBaseFeeNumerator in
          BN_divn totalReduction numberOfPeriod
      | _ =>
          exponentialReductionFactor minBaseFeeNumerator maxBaseFeeNumerator
            numberOfPeriod
      end ;;
    Ok {| cliffFeeNumerator := maxBaseFeeNumerator;
          firstFactor := numberOfPeriod;
          secondFactor := periodFrequency;
          thirdFactor := reductionFactor;
          baseFeeMode := baseFeeMode |}.

Definition getRateLimiterParams (baseFeeBps feeIncrementBps referenceAmount
    maxLimiterDuration tokenQuoteDecimal : Z) (activationType : ActivationType)
    : result BaseFee :=
  let cliffFeeNumerator := bpsToFeeNumerator baseFeeBps in
  let feeIncrementNumerator := bpsToFeeNumerator feeIncrementBps in
  _ <- throwIf ((baseFeeBps <=? 0) || (feeIncrementBps <=? 0)
                || (referenceAmount <=? 0) || (maxLimiterDuration <=? 0))
         "All rate limiter parameters must be greater than zero" ;;
  _ <- throwIf (baseFeeBps >? MAX_FEE_BPS)
         "Base fee exceeds maximum allowed value" ;;
  _ <- throwIf (feeIncrementBps >? MAX_FEE_BPS)
         "Fee increment exceeds maximum allowed value" ;;
  _ <- throwIf (feeIncrementNumerator >=? FEE_DENOMINATOR)
         "Fee increment numerator must be less than FEE_DENOMINATOR" ;;
  let deltaNumerator := MAX_FEE_NUMERATOR - cliffFeeNumerator in
  maxIndex <- BN_div deltaNumerator feeIncrementNumerator ;;
  _ <- throwIf (maxIndex <? 1)
         "Fee increment is too large for the given base fee" ;;
  _ <- throwIf ((cliffFeeNumerator <? MIN_FEE_NUMERATOR)
                || (cliffFeeNumerator >? MAX_FEE_NUMERATOR))
         "Base fee must be between 0.01% and 99%" ;;
  let maxDuration :=
    match activationType with
    | Slot => MAX_RATE_LIMITER_DURATION_IN_SLOTS
    | Timestamp => MAX_RATE_LIMITER_DURATION_IN_SECONDS
    end in
  _ <- throwIf (maxLimiterDuration >? maxDuration)
         "Max duration exceeds maximum allowed value" ;;
  let referenceAmountInLamports :=
    convertToLamports referenceAmount tokenQuoteDecimal in
  Ok {| cliffFeeNumerator := cliffFeeNumerator;
        firstFactor := feeIncrementBps;
        secondFactor := maxLimiterDuration;
        thirdFactor := referenceAmountInLamports;
        baseFeeMode := RateLimiter |}.

Definition getBaseFeeParams (baseFeeParams : BaseFeeParams)
    (tokenQuoteDecimal : Z) (activationType : ActivationType) : result BaseFee :=
  match bfp_baseFeeMode baseFeeParams with
  | RateLimiter =>
      match bfp_rateLimiterParam baseFeeParams with
      | None => Err "Rate limiter parameters are required for RateLimiter mode"
      | Some p =>
          getRateLimiterParams (rl_baseFeeBps p) (rl_feeIncrementBps p)
            (rl_referenceAmount p) (rl_maxLimiterDuration p)
            tokenQuoteDecimal activationType
      end
  | mode =>
      match bfp_feeSchedulerParam baseFeeParams with
      | None => Err "Fee scheduler parameters are required for FeeScheduler mode"
      | Some p =>
          getFeeSchedulerParams (fs_startingFeeBps p) (fs_endingFeeBps p)
            mode (fs_numberOfPeriod p) (fs_totalDuration p)
      end
  end.

Definition getDynamicFeeParams (baseFeeBps maxPriceChangeBps : Z)
    : result DynamicFeeParameters :=
  _ <- throwIf (maxPriceChangeBps >? MAX_PRICE_CHANGE_BPS_DEFAULT)
         "maxPriceChangeBps must be less than or equal to MAX_PRICE_CHANGE_BPS_DEFAULT" ;;
  let priceRatio := D_priceRatio maxPriceChangeBps in
  sqrtPriceRatioQ64 <-
    BN_ofFixed (D_floor (D_mul (D_sqrt priceRatio)
                               (D_pow (D_ofZ 2) (D_ofZ 64)))) ;;
  q <- BN_div (sqrtPriceRatioQ64 - ONE_Q64) BIN_STEP_BPS_U128_DEFAULT ;;
  let deltaBinId := q * 2 in
  let maxVolatilityAccumulator := deltaBinId * BASIS_POINT_MAX in
  let squareVfaBin := (maxVolatilityAccumulator * BIN_STEP_BPS_DEFAULT) ^ 2 in
  let baseFeeNumerator := bpsToFeeNumerator baseFeeBps in
  maxDynamicFeeNumerator <- BN_divn (baseFeeNumerator * 20) 100 ;;
  let vFee := maxDynamicFeeNumerator * 100000000000 - 99999999999 in
  variableFeeControl <- BN_div vFee squareVfaBin ;;
  mva <- BN_toNumber maxVolatilityAccumulator ;;
  vfc <- BN_toNumber variableFeeControl ;;
  Ok {| binStep := BIN_STEP_BPS_DEFAULT;
        binStepU128 := BIN_STEP_BPS_U128_DEFAULT;
        filterPeriod := DYNAMIC_FEE_FILTER_PERIOD_DEFAULT;
        decayPeriod := DYNAMIC_FEE_DECAY_PERIOD_DEFAULT;
        reductionFactor := DYNAMIC_FEE_REDUCTION_FACTOR_DEFAULT;
        maxVolatilityAccumulator := mva;
        variableFeeControl := vfc |}.

Definition getLockedVestingParams (totalLockedVestingAmount numberOfVestingPeriod
    cliffUnlockAmount totalVestingDuration cliffDurationFromMigrationTime
    tokenBaseDecimal : Z) : result LockedVestingParameters :=
  if totalLockedVestingAmount =? 0 then
    Ok {| amountPerPeriod := 0;
          cliffDurationFromMigrationTime := 0;
          frequency := 0;
          numberOfPeriod := 0;
          cliffUnlockAmount := 0 |}
  else if totalLockedVestingAmount =? cliffUnlockAmount then
    Ok {| amountPerPeriod := convertToLamports 1 tokenBaseDecimal;
          cliffDurationFromMigrationTime := cliffDurationFromMigrationTime;
          frequency := 1;
          numberOfPeriod := 1;
          cliffUnlockAmount :=
            convertToLamports (totalLockedVestingAmount - 1) tokenBaseDecimal |}
  else
    _ <- throwIf (numberOfVestingPeriod <=? 0)
           "Total periods must be greater than zero" ;;
    _ <- throwIf ((numberOfVestingPeriod =? 0) || (totalVestingDuration =? 0))
           "numberOfPeriod and totalVestingDuration must both be greater than zero" ;;
    _ <- throwIf (cliffUnlockAmount >? totalLockedVestingAmount)
           "Cliff unlock amount cannot be greater than total locked vesting amount" ;;
    (* Math.floor of the quotient of two integers *)
    let roundedAmountPerPeriod :=
      (totalLockedVestingAmount - cliffUnlockAmount) / numberOfVestingPeriod in
    let totalPeriodicAmount := roundedAmountPerPeriod * numberOfVestingPeriod in
    let remainder :=
      totalLockedVestingAmount - (cliffUnlockAmount + totalPeriodicAmount) in
    let adjustedCliffUnlockAmount := cliffUnlockAmount + remainder in
    let periodFrequency := Z.quot totalVestingDuration numberOfVestingPeriod in
    Ok {| amountPerPeriod :=
            convertToLamports roundedAmountPerPeriod tokenBaseDecimal;
          cliffDurationFromMigrationTime := cliffDurationFromMigrationTime;
          frequency := periodFrequency;
          numberOfPeriod := numberOfVestingPeriod;
          cliffUnlockAmount :=
            convertToLamports adjustedCliffUnlockAmount tokenBaseDecimal |}.

Definition getTwoCurve (migrationSqrtPrice midSqrtPrice initialSqrtPrice
    swapAmount migrationQuoteThreshold : Z) : result CurveResult :=
  let p0 := D_ofZ initialSqrtPrice in
  let p1 := D_ofZ midSqrtPrice in
  let p2 := D_ofZ migrationSqrtPrice in
  let a1 := D_sub (D_div (D_ofZ 1) p0) (D_div (D_ofZ 1) p1) in
  let b1 := D_sub (D_div (D_ofZ 1) p1) (D_div (D_ofZ 1) p2) in
  let c1 := D_ofZ swapAmount in
  let a2 := D_sub p1 p0 in
  let b2 := D_sub p2 p1 in
  let c2 := D_mul (D_ofZ migrationQuoteThreshold)
                  (D_pow (D_ofZ 2) (D_ofZ 128)) in
  let l0 := D_div (D_sub (D_mul c1 b2) (D_mul c2 b1))
                  (D_sub (D_mul a1 b2) (D_mul a2 b1)) in
  let l1 := D_div (D_sub (D_mul c1 a2) (D_mul c2 a1))
                  (D_sub (D_mul b1 a2) (D_mul b2 a1)) in
  if D_isNeg l0 || D_isNeg l1 then
    Ok {| cr_isOk := false; cr_sqrtStartPrice := 0; cr_curve := [] |}
  else
    liquidity0 <- BN_ofFixed (D_floor l0) ;;
    liquidity1 <- BN_ofFixed (D_floor l1) ;;
    Ok {| cr_isOk := true;
          cr_sqrtStartPrice := initialSqrtPrice;
          cr_curve :=
            [ {| sqrtPrice := midSqrtPrice; liquidity := liquidity0 |};
              {| sqrtPrice := migrationSqrtPrice; liquidity := liquidity1 |} ] |}.

(** The two liquidity values that [getTwoCurve] solves for, as the
    source computes them. *)
Definition getTwoCurve_l0 (migrationSqrtPrice midSqrtPrice initialSqrtPrice
    swapAmount migrationQuoteThreshold : Z) : Decimal :=
  let p0 := D_ofZ initialSqrtPrice in
  let p1 := D_ofZ midSqrtPrice in
  let p2 := D_ofZ migrationSqrtPrice in
  let a1 := D_sub (D_div (D_ofZ 1) p0) (D_div (D_ofZ 1) p1) in
  let b1 := D_sub (D_div (D_ofZ 1) p1) (D_div (D_ofZ 1) p2) in
  let c1 := D_ofZ swapAmount in
  let a2 := D_sub p1 p0 in
  let b2 := D_sub p2 p1 in
  let c2 := D_mul (D_ofZ migrationQuoteThreshold)
                  (D_pow (D_ofZ 2) (D_ofZ 128)) in
  D_div (D_sub (D_mul c1 b2) (D_mul c2 b1))
        (D_sub (D_mul a1 b2) (D_mul a2 b1)).

Definition getTwoCurve_l1 (migrationSqrtPrice midSqrtPrice initialSqrtPrice
    swapAmount migrationQuoteThreshold : Z) : Decimal :=
  let p0 := D_ofZ initialSqrtPrice in
  let p1 := D_ofZ midSqrtPrice in
  let p2 := D_ofZ migrationSqrtPrice in
  let a1 := D_sub (D_div (D_ofZ 1) p0) (D_div (D_ofZ 1) p1) in
  let b1 := D_sub (D_div (D_ofZ 1) p1) (D_div (D_ofZ 1) p2) in
  let c1 := D_ofZ swapAmount in
  let a2 := D_sub p1 p0 in
  let b2 := D_sub p2 p1 in
  let c2 := D_mul (D_ofZ migrationQuoteThreshold)
                  (D_pow (D_ofZ 2) (D_ofZ 128)) in
  D_div (D_sub (D_mul c1 a2) (D_mul c2 a1))
        (D_sub (D_mul b1 a2) (D_mul b2 a1)).

(** Market caps are [Decimal] arguments in the source. *)
Definition getTokenomics (initialMarketCap migrationMarketCap : Decimal)
    (totalLockedVestingAmount totalLeftover totalTokenSupply : Z)
    : result Tokenomics :=
  let marketCapRatio := D_div initialMarketCap migrationMarketCap in
  let sqrtRatio := D_sqrt marketCapRatio in
  let vestingPercentage :=
    D_div (D_mul (D_ofZ totalLockedVestingAmount) (D_ofZ 100))
          (D_ofZ totalTokenSupply) in
  let leftoverPercentage :=
    D_div (D_mul (D_ofZ totalLeftover) (D_ofZ 100)) (D_ofZ totalTokenSupply) in
  let percentageSupplyOnMigration :=
    D_sub (D_mul (D_ofZ 100) sqrtRatio)
          (D_mul (D_add vestingPercentage leftoverPercentage) sqrtRatio) in
  let denominator := D_add (D_ofZ 1) sqrtRatio in
  let migrationSupplyDecimal :=
    D_div (D_mul (D_div percentageSupplyOnMigration denominator)
                 (D_ofZ totalTokenSupply))
          (D_ofZ 100) in
  migrationSupply <- BN_ofFixed (D_floor migrationSupplyDecimal) ;;
  let bondingCurveSupply :=
    totalTokenSupply - migrationSupply - totalLeftover - totalLockedVestingAmount in
  Ok {| bondingCurveSupply := bondingCurveSupply;
        migrationSupply := migrationSupply;
        leftoverSupply := totalLeftover;
        lockedVestingSupply := totalLockedVestingAmount |}.

End Common.

(** ** helpers/build.ts *)

Section Build.
Context `{NU : Numeric} {CM : CurveMath} {UT : Utils}.

Record LockedVestingParam := mkLockedVestingParam {
  totalLockedVestingAmount : Z;
  numberOfVestingPeriod : Z;
  lv_cliffUnlockAmount : Z;
  totalVestingDuration : Z;
  lv_cliffDurationFromMigrationTime : Z
}.

Record MigrationFee := mkMigrationFee {
  feePercentage : Z;
  creatorFeePercentage : Z
}.

(** The fields every [buildCurve*] parameter object has. *)
Record BuildCurveBaseParams := mkBaseParams {
  totalTokenSupply : Z;
  migrationOption : MigrationOption;
  tokenBaseDecimal : Z;
  tokenQuoteDecimal : Z;
  lockedVestingParam : LockedVestingParam;
  baseFeeParams : BaseFeeParams;
  dynamicFeeEnabled : bool;
  activationType : ActivationType;
  collectFeeMode : CollectFeeMode;
  migrationFeeOption : MigrationFeeOption;
  tokenType : Z;
  partnerLpPercentage : Z;
  creatorLpPercentage : Z;
  partnerLockedLpPercentage : Z;
  creatorLockedLpPercentage : Z;
  creatorTradingFeePercentage : Z;
  leftover : Z;
  tokenUpdateAuthority : Z;
  migrationFee : MigrationFee;
  migratedPoolFee : option MigratedPoolFee;
  pausableMode : option Z;
  noMigrationPartnerSurplusPercentage : option Z;
  noMigrationCreatorSurplusPercentage : option Z;
  noMigrationProtocolSurplusPercentage : option Z
}.

Record BuildCurveParams := mkBuildCurveParams {
  bc_base : BuildCurveBaseParams;
  bc_percentageSupplyOnMigration : Decimal;
  bc_migrationQuoteThreshold : Z
}.

Record BuildCurveWithTwoSegmentsParams := mkTwoSegmentsParams {
  ts_base : BuildCurveBaseParams;
  ts_initialMarketCap : Decimal;
  ts_migrationMarketCap : Decimal;
  ts_percentageSupplyOnMigration : Z
}.

Record BuildCurveWithMidPriceParams := mkMidPriceParams {
  mp_base : BuildCurveBaseParams;
  mp_initialMarketCap : Decimal;
  mp_migrationMarketCap : Decimal;
  mp_midPrice : Decimal;
  mp_percentageSupplyOnMigration : Z
}.

Record BuildCurveWithLiquidityWeightsParams := mkLiquidityWeightsParams {
  lw_base : BuildCurveBaseParams;
  lw_initialMarketCap : Decimal;
  lw_migrationMarketCap : Decimal;
  lw_liquidityWeights : list Decimal
}.

Record PoolFees := mkPoolFees {
  pf_baseFee : BaseFee;
  pf_dynamicFee : option DynamicFeeParameters
}.

Record ConfigParameters := mkConfig {
  cfg_poolFees : PoolFees;
  cfg_activationType : ActivationType;
  cfg_collectFeeMode : CollectFeeMode;
  cfg_migrationOption : MigrationOption;
  cfg_tokenType : Z;
  cfg_tokenDecimal : Z;
  cfg_migrationQuoteThreshold : Z;
  cfg_partnerLpPercentage : Z;
  cfg_creatorLpPercentage : Z;
  cfg_partnerLockedLpPercentage : Z;
  cfg_creatorLockedLpPercentage : Z;
  cfg_sqrtStartPrice : Z;
  cfg_lockedVesting : LockedVestingParameters;
  cfg_migrationFeeOption : MigrationFeeOption;
  cfg_preMigrationTokenSupply : Z;
  cfg_postMigrationTokenSupply : Z;
  cfg_creatorTradingFeePercentage : Z;
  cfg_tokenUpdateAuthority : Z;
  cfg_pausableMode : Z;
  cfg_noMigrationPartnerSurplusPercentage : Z;
  cfg_noMigrationCreatorSurplusPercentage : Z;
  cfg_noMigrationProtocolSurplusPercentage : Z;
  cfg_migrationFee : MigrationFee;
  cfg_migratedPoolFee : MigratedPoolFee;
  cfg_curve : list LiquidityDistributionParameters
}.

(** [x ?? 0] *)
Definition orZero (x : option Z) : Z :=
  match x with Some v => v | None => 0 end.

(** The [instructionParams] literal, which the four builders spell out
    with the same fields: the dynamic fee is derived from the base fee of
    the request, and reading a field of an absent object is a TypeError. *)
Definition instructionParams (b : BuildCurveBaseParams) (baseFee : BaseFee)
    (lockedVesting : LockedVestingParameters)
    (migratedPoolFeeParams : option MigratedPoolFee)
    (totalSupply migrationQuoteThresholdInLamport sqrtStartPrice : Z)
    (curve : list LiquidityDistributionParameters) : result ConfigParameters :=
  dynamicFee <-
    (if dynamicFeeEnabled b then
       bps <-
         match bfp_baseFeeMode (baseFeeParams b) with
         | RateLimiter =>
             match bfp_rateLimiterParam (baseFeeParams b) with
             | Some p => Ok (rl_baseFeeBps p)
             | None => Err "TypeError"
             end
         | _ =>
             match bfp_feeSchedulerParam (baseFeeParams b) with
             | Some p => Ok (fs_endingFeeBps p)
             | None => Err "TypeError"
             end
         end ;;
       d <- getDynamicFeeParams bps MAX_PRICE_CHANGE_BPS_DEFAULT ;;
       Ok (Some d)
     else Ok None) ;;
  mpf <- match migratedPoolFeeParams with
         | Some f => Ok f
         | None => Err "TypeError"
         end ;;
  Ok {| cfg_poolFees := {| pf_baseFee := baseFee; pf_dynamicFee := dynamicFee |};
        cfg_activationType := activationType b;
        cfg_collectFeeMode := collectFeeMode b;
        cfg_migrationOption := migrationOption b;
        cfg_tokenType := tokenType b;
        cfg_tokenDecimal := tokenBaseDecimal b;
        cfg_migrationQuoteThreshold := migrationQuoteThresholdInLamport;
        cfg_partnerLpPercentage := partnerLpPercentage b;
        cfg_creatorLpPercentage := creatorLpPercentage b;
        cfg_partnerLockedLpPercentage := partnerLockedLpPercentage b;
        cfg_creatorLockedLpPercentage := creatorLockedLpPercentage b;
        cfg_sqrtStartPrice := sqrtStartPrice;
        cfg_lockedVesting := lockedVesting;
        cfg_migrationFeeOption := migrationFeeOption b;
        cfg_preMigrationTokenSupply := totalSupply;
        cfg_postMigrationTokenSupply := totalSupply;
        cfg_creatorTradingFeePercentage := creatorTradingFeePercentage b;
        cfg_tokenUpdateAuthority := tokenUpdateAuthority b;
        cfg_pausableMode := orZero (pausableMode b);
        cfg_noMigrationPartnerSurplusPercentage :=
          orZero (noMigrationPartnerSurplusPercentage b);
        cfg_noMigrationCreatorSurplusPercentage :=
          orZero (noMigrationCreatorSurplusPercentage b);
        cfg_noMigrationProtocolSurplusPercentage :=
          orZero (noMigrationProtocolSurplusPercentage b);
        cfg_migrationFee := migrationFee b;
        cfg_migratedPoolFee :=
          {| mpf_collectFeeMode := mpf_collectFeeMode mpf;
             mpf_dynamicFee := mpf_dynamicFee mpf;
             mpf_poolFeeBps := mpf_poolFeeBps mpf |};
        cfg_curve := curve |}.

(** The first statements of every builder. *)
Definition lockedVestingOf (b : BuildCurveBaseParams)
    : result LockedVestingParameters :=
  getLockedVestingParams
    (totalLockedVestingAmount (lockedVestingParam b))
    (numberOfVestingPeriod (lockedVestingParam b))
    (lv_cliffUnlockAmount (lockedVestingParam b))
    (totalVestingDuration (lockedVestingParam b))
    (lv_cliffDurationFromMigrationTime (lockedVestingParam b))
    (tokenBaseDecimal b).

Definition buildCurve (buildCurveParam : BuildCurveParams)
    : result ConfigParameters :=
  let b := bc_base buildCurveParam in
  let percentageSupplyOnMigration :=
    bc_percentageSupplyOnMigration buildCurveParam in
  let migrationQuoteThreshold := bc_migrationQuoteThreshold buildCurveParam in
  baseFee <- getBaseFeeParams (baseFeeParams b) (tokenQuoteDecimal b)
               (activationType b) ;;
  lockedVesting <- lockedVestingOf b ;;
  let migratedPoolFeeParams :=
    getMigratedPoolFeeParams (migrationOption b) (migrationFeeOption b)
      (migratedPoolFee b) in
  let migrationBaseSupply :=
    D_div (D_mul (D_ofZ (totalTokenSupply b)) percentageSupplyOnMigration)
          (D_ofZ 100) in
  let totalSupply := convertToLamports (totalTokenSupply b) (tokenBaseDecimal b) in
  let migrationQuoteAmount :=
    getMigrationQuoteAmountFromMigrationQuoteThreshold
      (D_ofZ migrationQuoteThreshold) (feePercentage (migrationFee b)) in
  let migrationPrice := D_div migrationQuoteAmount migrationBaseSupply in
  let migrationQuoteThresholdInLamport :=
    convertToLamports migrationQuoteThreshold (tokenQuoteDecimal b) in
  let totalLeftover := convertToLamports (leftover b) (tokenBaseDecimal b) in
  migrateSqrtPrice <- getSqrtPriceFromPrice migrationPrice
                        (tokenBaseDecimal b) (tokenQuoteDecimal b) ;;
  migrationQuoteAmountInLamport <-
    fromDecimalToBN (D_mul migrationQuoteAmount (D_lit 1 (tokenQuoteDecimal b))) ;;
  migrationBaseAmount <- getMigrationBaseToken migrationQuoteAmountInLamport
                           migrateSqrtPrice (migrationOption b) ;;
  let totalVestingAmount := getTotalVestingAmount lockedVesting in
  let swapAmount :=
    totalSupply - migrationBaseAmount - totalVestingAmount - totalLeftover in
  ' (sqrtStartPrice, curve) <-
      getFirstCurve migrateSqrtPrice migrationBaseAmount swapAmount
        migrationQuoteThresholdInLamport (feePercentage (migrationFee b)) ;;
  totalDynamicSupply <-
    getTotalSupplyFromCurve migrationQuoteThresholdInLamport sqrtStartPrice
      curve lockedVesting (migrationOption b) totalLeftover
      (feePercentage (migrationFee b)) ;;
  let remainingAmount := totalSupply - totalDynamicSupply in
  lastLiquidity <- getInitialLiquidityFromDeltaBase remainingAmount
                     MAX_SQRT_PRICE migrateSqrtPrice ;;
  let curve :=
    if negb (lastLiquidity =? 0) then
      curve ++ [ {| sqrtPrice := MAX_SQRT_PRICE; liquidity := lastLiquidity |} ]
    else curve in
  instructionParams b baseFee lockedVesting migratedPoolFeeParams
    totalSupply migrationQuoteThresholdInLamport sqrtStartPrice curve.

(** The check that closes the three multi-segment builders. *)
Definition checkLeftOverDelta (totalDynamicSupply totalSupply totalLeftover : Z)
    : result unit :=
  if totalDynamicSupply >? totalSupply then
    let leftOverDelta := totalDynamicSupply - totalSupply in
    throwIf (negb (leftOverDelta <? totalLeftover))
      "leftOverDelta must be less than totalLeftover"
  else Ok tt.

(** The loop of [buildCurveWithTwoSegments] over [midPrices]: the first
    result that is ok is kept, and [sqrtStartPrice = 0], [curve = []]
    stay when there is none. *)
Fixpoint tryMidPrices (midPrices : list Z)
    (migrateSqrtPrice initialSqrtPrice swapAmount
     migrationQuoteThresholdInLamport : Z)
    : result (Z * list LiquidityDistributionParameters) :=
  match midPrices with
  | [] => Ok (0, [])
  | mid :: rest =>
      result <- getTwoCurve migrateSqrtPrice mid initialSqrtPrice swapAmount
                  migrationQuoteThresholdInLamport ;;
      if cr_isOk result then Ok (cr_sqrtStartPrice result, cr_curve result)
      else tryMidPrices rest migrateSqrtPrice initialSqrtPrice swapAmount
             migrationQuoteThresholdInLamport
  end.

(** The three candidate mid prices, in the order of the [midPrices] array. *)
Definition midPricesOf (migrateSqrtPrice initialSqrtPrice : Z)
    : result (list Z) :=
  let midSqrtPriceDecimal1 :=
    D_sqrt (D_mul (D_ofZ migrateSqrtPrice) (D_ofZ initialSqrtPrice)) in
  midSqrtPrice1 <- BN_ofFixed (D_floor midSqrtPriceDecimal1) ;;
  let numerator1 := D_ofZ initialSqrtPrice in
  let numerator2 := D_pow (D_ofZ migrateSqrtPrice) (D_ofZ 3) in
  let product1 := D_mul numerator1 numerator2 in
  let midSqrtPriceDecimal2 := D_pow product1 (D_lit 25 (-2)) in
  midSqrtPrice2 <- BN_ofFixed (D_floor midSqrtPriceDecimal2) ;;
  let numerator3 := D_pow (D_ofZ initialSqrtPrice) (D_ofZ 3) in
  let numerator4 := D_ofZ migrateSqrtPrice in
  let product2 := D_mul numerator3 numerator4 in
  let midSqrtPriceDecimal3 := D_pow product2 (D_lit 25 (-2)) in
  midSqrtPrice3 <- BN_ofFixed (D_floor midSqrtPriceDecimal3) ;;
  Ok [midSqrtPrice3; midSqrtPrice2; midSqrtPrice1].

Definition buildCurveWithTwoSegments
    (buildCurveWithTwoSegmentsParam : BuildCurveWithTwoSegmentsParams)
    : result ConfigParameters :=
  let b := ts_base buildCurveWithTwoSegmentsParam in
  let initialMarketCap := ts_initialMarketCap buildCurveWithTwoSegmentsParam in
  let migrationMarketCap := ts_migrationMarketCap buildCurveWithTwoSegmentsParam in
  let percentageSupplyOnMigration :=
    ts_percentageSupplyOnMigration buildCurveWithTwoSegmentsParam in
  baseFee <- getBaseFeeParams (baseFeeParams b) (tokenQuoteDecimal b)
               (activationType b) ;;
  lockedVesting <- lockedVestingOf b ;;
  let migratedPoolFeeParams :=
    getMigratedPoolFeeParams (migrationOption b) (migrationFeeOption b)
      (migratedPoolFee b) in
  let migrationBaseSupply :=
    Z.quot (totalTokenSupply b * percentageSupplyOnMigration) 100 in
  let totalSupply := convertToLamports (totalTokenSupply b) (tokenBaseDecimal b) in
  let migrationQuoteAmount :=
    getMigrationQuoteAmount migrationMarketCap
      (D_ofZ percentageSupplyOnMigration) in
  let migrationQuoteThreshold :=
    getMigrationQuoteThresholdFromMigrationQuoteAmount migrationQuoteAmount
      (D_ofZ (feePercentage (migrationFee b))) in
  let migrationPrice := D_div migrationQuoteAmount (D_ofZ migrationBaseSupply) in
  migrationQuoteThresholdInLamport <-
    fromDecimalToBN
      (D_mul migrationQuoteThreshold (D_lit 1 (tokenQuoteDecimal b))) ;;
  migrationQuoteAmountInLamport <-
    fromDecimalToBN (D_mul migrationQuoteAmount (D_lit 1 (tokenQuoteDecimal b))) ;;
  migrateSqrtPrice <- getSqrtPriceFromPrice migrationPrice
                        (tokenBaseDecimal b) (tokenQuoteDecimal b) ;;
  migrationBaseAmount <- getMigrationBaseToken migrationQuoteAmountInLamport
                           migrateSqrtPrice (migrationOption b) ;;
  let totalVestingAmount := getTotalVestingAmount lockedVesting in
  let totalLeftover := convertToLamports (leftover b) (tokenBaseDecimal b) in
  let swapAmount :=
    totalSupply - migrationBaseAmount - totalVestingAmount - totalLeftover in
  initialSqrtPrice <-
    getSqrtPriceFromMarketCap initialMarketCap (totalTokenSupply b)
      (tokenBaseDecimal b) (tokenQuoteDecimal b) ;;
  midPrices <- midPricesOf migrateSqrtPrice initialSqrtPrice ;;
  ' (sqrtStartPrice, curve) <-
      tryMidPrices midPrices migrateSqrtPrice initialSqrtPrice swapAmount
        migrationQuoteThresholdInLamport ;;
  totalDynamicSupply <-
    getTotalSupplyFromCurve migrationQuoteThresholdInLamport sqrtStartPrice
      curve lockedVesting (migrationOption b) totalLeftover
      (feePercentage (migrationFee b)) ;;
  _ <- checkLeftOverDelta totalDynamicSupply totalSupply totalLeftover ;;
  instructionParams b baseFee lockedVesting migratedPoolFeeParams
    totalSupply migrationQuoteThresholdInLamport sqrtStartPrice curve.


Definition buildCurveWithMidPrice
    (buildCurveWithMidPriceParam : BuildCurveWithMidPriceParams)
    : result ConfigParameters :=
  let b := mp_base buildCurveWithMidPriceParam in
  let initialMarketCap := mp_initialMarketCap buildCurveWithMidPriceParam in
  let migrationMarketCap := mp_migrationMarketCap buildCurveWithMidPriceParam in
  let midPrice := mp_midPrice buildCurveWithMidPriceParam in
  let percentageSupplyOnMigration :=
    mp_percentageSupplyOnMigration buildCurveWithMidPriceParam in
  baseFee <- getBaseFeeParams (baseFeeParams b) (tokenQuoteDecimal b)
               (activationType b) ;;
  lockedVesting <- lockedVestingOf b ;;
  let migratedPoolFeeParams :=
    getMigratedPoolFeeParams (migrationOption b) (migrationFeeOption b)
      (migratedPoolFee b) in
  let migrationBaseSupply :=
    Z.quot (totalTokenSupply b * percentageSupplyOnMigration) 100 in
  let totalSupply := convertToLamports (totalTokenSupply b) (tokenBaseDecimal b) in
  let migrationQuoteAmount :=
    getMigrationQuoteAmount migrationMarketCap
      (D_ofZ percentageSupplyOnMigration) in
  let migrationQuoteThreshold :=
    getMigrationQuoteThresholdFromMigrationQuoteAmount migrationQuoteAmount
      (D_ofZ (feePercentage (migrationFee b))) in
  let migrationPrice := D_div migrationQuoteAmount (D_ofZ migrationBaseSupply) in
  migrationQuoteThresholdInLamport <-
    fromDecimalToBN
      (D_mul migrationQuoteThreshold (D_lit 1 (tokenQuoteDecimal b))) ;;
  migrationQuoteAmountInLamport <-
    fromDecimalToBN (D_mul migrationQuoteAmount (D_lit 1 (tokenQuoteDecimal b))) ;;
  migrateSqrtPrice <- getSqrtPriceFromPrice migrationPrice
                        (tokenBaseDecimal b) (tokenQuoteDecimal b) ;;
  migrationBaseAmount <- getMigrationBaseToken migrationQuoteAmountInLamport
                           migrateSqrtPrice (migrationOption b) ;;
  let totalVestingAmount := getTotalVestingAmount lockedVesting in
  let totalLeftover := convertToLamports (leftover b) (tokenBaseDecimal b) in
  let swapAmount :=
    totalSupply - migrationBaseAmount - totalVestingAmount - totalLeftover in
  initialSqrtPrice <-
    getSqrtPriceFromMarketCap initialMarketCap (totalTokenSupply b)
      (tokenBaseDecimal b) (tokenQuoteDecimal b) ;;
  midSqrtPrice <- getSqrtPriceFromPrice midPrice
                    (tokenBaseDecimal b) (tokenQuoteDecimal b) ;;
  result <- getTwoCurve migrateSqrtPrice midSqrtPrice initialSqrtPrice
              swapAmount migrationQuoteThresholdInLamport ;;
  let curve := cr_curve result in
  let sqrtStartPrice := cr_sqrtStartPrice result in
  totalDynamicSupply <-
    getTotalSupplyFromCurve migrationQuoteThresholdInLamport sqrtStartPrice
      curve lockedVesting (migrationOption b) totalLeftover
      (feePercentage (migrationFee b)) ;;
  _ <- checkLeftOverDelta totalDynamicSupply totalSupply totalLeftover ;;
  instructionParams b baseFee lockedVesting migratedPoolFeeParams
    totalSupply migrationQuoteThresholdInLamport sqrtStartPrice curve.

(** [sqrtPrices]: [n] turns of the loop that pushes [currentPrice] and
    multiplies it by [qDecimal]. *)
Fixpoint sqrtPricesFrom (n : nat) (qDecimal : Decimal) (currentPrice : Z)
    : result (list Z) :=
  match n with
  | O => Ok []
  | S n' =>
      next <- convertDecimalToBN (D_mul qDecimal (D_ofZ currentPrice)) ;;
      rest <- sqrtPricesFrom n' qDecimal next ;;
      Ok (currentPrice :: rest)
  end.

(** [sumFactor]: the loop over [i = 1 .. 16]; [prices] starts at
    [sqrtPrices[i - 1]] and [weights] at [liquidityWeights[i - 1]].  A
    missing array element makes [new Decimal(undefined)] throw. *)
Fixpoint sumFactorFrom (n : nat) (prices : list Z) (weights : list Decimal)
    (migrationFeeFactor pmaxWeight sumFactor : Decimal) : result Decimal :=
  match n with
  | O => Ok sumFactor
  | S n' =>
      match prices, weights with
      | piMinusBN :: ((piBN :: _) as prices'), k :: weights' =>
          let pi := D_ofZ piBN in
          let piMinus := D_ofZ piMinusBN in
          let w1 := D_div (D_sub pi piMinus) (D_mul pi piMinus) in
          let w2 := D_div (D_mul (D_sub pi piMinus) migrationFeeFactor)
                          (D_mul pmaxWeight pmaxWeight) in
          let weight := D_mul k (D_add w1 w2) in
          sumFactorFrom n' prices' weights' migrationFeeFactor pmaxWeight
            (D_add sumFactor weight)
      | _, _ => Err "DecimalError"
      end
  end.

(** The curve of sixteen points: [prices] starts at [sqrtPrices[i + 1]],
    and the last point takes [pMax]. *)
Fixpoint weightedCurveFrom (n : nat) (prices : list Z) (weights : list Decimal)
    (l1 : Decimal) (pMax : Z) : result (list LiquidityDistributionParameters) :=
  match n with
  | O => Ok []
  | S n' =>
      match prices, weights with
      | p :: prices', k :: weights' =>
          liquidity <- convertDecimalToBN (D_mul l1 k) ;;
          let sqrtPrice := match n' with O => pMax | _ => p end in
          rest <- weightedCurveFrom n' prices' weights' l1 pMax ;;
          Ok ({| sqrtPrice := sqrtPrice; liquidity := liquidity |} :: rest)
      | _, _ => Err "DecimalError"
      end
  end.

Definition buildCurveWithLiquidityWeights
    (buildCurveWithLiquidityWeightsParam : BuildCurveWithLiquidityWeightsParams)
    : result ConfigParameters :=
  let b := lw_base buildCurveWithLiquidityWeightsParam in
  let initialMarketCap := lw_initialMarketCap buildCurveWithLiquidityWeightsParam in
  let migrationMarketCap :=
    lw_migrationMarketCap buildCurveWithLiquidityWeightsParam in
  let liquidityWeights :=
    lw_liquidityWeights buildCurveWithLiquidityWeightsParam in
  baseFee <- getBaseFeeParams (baseFeeParams b) (tokenQuoteDecimal b)
               (activationType b) ;;
  lockedVesting <- lockedVestingOf b ;;
  let migratedPoolFeeParams :=
    getMigratedPoolFeeParams (migrationOption b) (migrationFeeOption b)
      (migratedPoolFee b) in
  pMin <- getSqrtPriceFromMarketCap initialMarketCap (totalTokenSupply b)
            (tokenBaseDecimal b) (tokenQuoteDecimal b) ;;
  pMax <- getSqrtPriceFromMarketCap migrationMarketCap (totalTokenSupply b)
            (tokenBaseDecimal b) (tokenQuoteDecimal b) ;;
  let priceRatio := D_div (D_ofZ pMax) (D_ofZ pMin) in
  let qDecimal := D_pow priceRatio (D_div (D_ofZ 1) (D_ofZ 16)) in
  sqrtPrices <- sqrtPricesFrom 17 qDecimal pMin ;;
  let totalSupply := convertToLamports (totalTokenSupply b) (tokenBaseDecimal b) in
  let totalLeftover := convertToLamports (leftover b) (tokenBaseDecimal b) in
  let totalVestingAmount := getTotalVestingAmount lockedVesting in
  let totalSwapAndMigrationAmount :=
    totalSupply - totalVestingAmount - totalLeftover in
  let pmaxWeight := D_ofZ pMax in
  let migrationFeeFactor :=
    D_div (D_sub (D_ofZ 100) (D_ofZ (feePercentage (migrationFee b))))
          (D_ofZ 100) in
  sumFactor <- sumFactorFrom 16 sqrtPrices liquidityWeights
                 migrationFeeFactor pmaxWeight (D_ofZ 0) ;;
  let l1 := D_div (D_ofZ totalSwapAndMigrationAmount) sumFactor in
  curve <- weightedCurveFrom 16 (tl sqrtPrices) liquidityWeights l1 pMax ;;
  swapBaseAmount <- getBaseTokenForSwap pMin pMax curve ;;
  swapBaseAmountBuffer <- getSwapAmountWithBuffer swapBaseAmount pMin curve ;;
  let migrationAmount := totalSwapAndMigrationAmount - swapBaseAmountBuffer in
  migrationQuoteAmount <- BN_shrn (migrationAmount * pMax * pMax) 128 ;;
  let migrationQuoteThreshold :=
    getMigrationQuoteThresholdFromMigrationQuoteAmount
      (D_ofZ migrationQuoteAmount) (D_ofZ (feePercentage (migrationFee b))) in
  migrationQuoteThresholdInLamport <- fromDecimalToBN migrationQuoteThreshold ;;
  totalDynamicSupply <-
    getTotalSupplyFromCurve migrationQuoteThresholdInLamport pMin
      curve lockedVesting (migrationOption b) totalLeftover
      (feePercentage (migrationFee b)) ;;
  _ <- checkLeftOverDelta totalDynamicSupply totalSupply totalLeftover ;;
  instructionParams b baseFee lockedVesting migratedPoolFeeParams
    totalSupply migrationQuoteThresholdInLamport pMin curve.

End Build.

(** ** helpers/common.ts: keys, total supply, breakdown and reserve *)

Definition U64_MAX : Z := 18446744073709551615.

(** [Buffer.compare]: the two buffers are compared byte by byte as
    unsigned numbers; on a common prefix the shorter one comes first.  The
    answer is [-1], [0] or [1]. *)
Fixpoint Buffer_compare (buf1 buf2 : list Byte.byte) : Z :=
  match buf1, buf2 with
  | [], [] => 0
  | [], _ :: _ => -1
  | _ :: _, [] => 1
  | x :: rest1, y :: rest2 =>
      match N.compare (Byte.to_N x) (Byte.to_N y) with
      | Lt => -1
      | Gt => 1
      | Eq => Buffer_compare rest1 rest2
      end
  end.

(** A [PublicKey] is taken by the bytes that [toBuffer()] gives. *)
Definition getFirstKey (key1 key2 : list Byte.byte) : list Byte.byte :=
  let buf1 := key1 in
  let buf2 := key2 in
  if Buffer_compare buf1 buf2 =? 1 then buf1 else buf2.

Definition getSecondKey (key1 key2 : list Byte.byte) : list Byte.byte :=
  let buf1 := key1 in
  let buf2 := key2 in
  if Buffer_compare buf1 buf2 =? 1 then buf2 else buf1.

(** [a.bitLength()]: the number of bits of the magnitude. *)
Definition BN_bitLength (a : Z) : Z :=
  if a =? 0 then 0 else Z.log2 (Z.abs a) + 1.

(** The argument object has the three fields of a locked vesting that the
    function reads.  Nothing inside the [try] throws but the check itself,
    and the [catch] throws the same error again. *)
Definition getTotalTokenSupply (swapBaseAmount migrationBaseThreshold : Z)
    (lockedVestingParams : LockedVestingParameters) : result Z :=
  let totalCirculatingAmount := swapBaseAmount + migrationBaseThreshold in
  let totalLockedVestingAmount :=
    cliffUnlockAmount lockedVestingParams
    + amountPerPeriod lockedVestingParams * numberOfPeriod lockedVestingParams in
  let totalAmount := totalCirculatingAmount + totalLockedVestingAmount in
  if (totalAmount <? 0) || (BN_bitLength totalAmount >? 64)
  then Err "Math overflow"
  else Ok totalAmount.

Record CurveBreakdown := mkCurveBreakdown {
  segmentAmounts : list Z;
  finalSqrtPrice : Z;
  totalAmount : Z
}.

(** The fields of a pool configuration account that
    [getQuoteReserveFromNextSqrtPrice] reads. *)
Record PoolConfig := mkPoolConfig {
  pc_sqrtStartPrice : Z;
  pc_curve : list LiquidityDistributionParameters
}.

Section Reserves.
Context {CM : CurveMath}.

(** The [for] loop of [getCurveBreakdown] from segment [i] on: [curve]
    holds the segments [i, i + 1, ...], and the other arguments are the
    loop's variables.  The source tells the last segment by
    [i === curve.length - 1]. *)
Fixpoint getCurveBreakdown_from (migrationQuoteThreshold currentSqrtPrice : Z)
    (curve : list LiquidityDistributionParameters)
    (segmentAmounts : list Z) (totalAllocated finalSqrtPrice : Z)
    : result CurveBreakdown :=
  match curve with
  | [] => Ok {| segmentAmounts := segmentAmounts;
                finalSqrtPrice := finalSqrtPrice;
                totalAmount := totalAllocated |}
  | c :: rest =>
      let lowerSqrtPrice := currentSqrtPrice in
      let upperSqrtPrice := sqrtPrice c in
      maxSegmentAmount <- getDeltaAmountQuoteUnsigned lowerSqrtPrice
                            upperSqrtPrice (liquidity c) Up ;;
      if maxSegmentAmount >=? migrationQuoteThreshold then
        finalSqrtPrice <- getNextSqrtPriceFromInput lowerSqrtPrice
                            (liquidity c) migrationQuoteThreshold false ;;
        Ok {| segmentAmounts :=
                (segmentAmounts ++ [migrationQuoteThreshold])
                ++ repeat 0 (List.length rest);
              finalSqrtPrice := finalSqrtPrice;
              totalAmount := totalAllocated + migrationQuoteThreshold |}
      else
        let totalAllocated := totalAllocated + maxSegmentAmount in
        _ <- throwIf (match rest with [] => true | _ :: _ => false end
                      && (totalAllocated <? migrationQuoteThreshold))
               "Not enough liquidity in curve" ;;
        getCurveBreakdown_from migrationQuoteThreshold upperSqrtPrice rest
          (segmentAmounts ++ [maxSegmentAmount]) totalAllocated upperSqrtPrice
  end.

Definition getCurveBreakdown (migrationQuoteThreshold sqrtStartPrice : Z)
    (curve : list LiquidityDistributionParameters) : result CurveBreakdown :=
  match curve with
  | [] => Err "Curve is empty"
  | _ :: _ =>
      getCurveBreakdown_from migrationQuoteThreshold sqrtStartPrice curve
        [] 0 sqrtStartPrice
  end.

(** The [for] loop of [getQuoteReserveFromNextSqrtPrice]; [lowerSqrtPrice]
    is [config.sqrtStartPrice] at [i = 0] and the previous point
    afterwards. *)
Fixpoint getQuoteReserveFromNextSqrtPrice_from (nextSqrtPrice lowerSqrtPrice : Z)
    (curve : list LiquidityDistributionParameters) (totalAmount : Z)
    : result Z :=
  match curve with
  | [] => Ok totalAmount
  | c :: rest =>
      if nextSqrtPrice >? lowerSqrtPrice then
        let upperSqrtPrice :=
          if nextSqrtPrice <? sqrtPrice c then nextSqrtPrice else sqrtPrice c in
        maxAmountIn <- getDeltaAmountQuoteUnsigned lowerSqrtPrice
                         upperSqrtPrice (liquidity c) Up ;;
        getQuoteReserveFromNextSqrtPrice_from nextSqrtPrice (sqrtPrice c) rest
          (totalAmount + maxAmountIn)
      else
        getQuoteReserveFromNextSqrtPrice_from nextSqrtPrice (sqrtPrice c) rest
          totalAmount
  end.

Definition getQuoteReserveFromNextSqrtPrice (nextSqrtPrice : Z)
    (config : PoolConfig) : result Z :=
  getQuoteReserveFromNextSqrtPrice_from nextSqrtPrice (pc_sqrtStartPrice config)
    (pc_curve config) 0.

End Reserves.

(** ** A model of decimal.js

    decimal.js values are signed decimal floating-point numbers; every
    arithmetic operation rounds its exact result to [precision] significant
    digits, half away from zero (the library's defaults: 20 digits,
    ROUND_HALF_UP).  The constructor and [floor] do not round.  This model
    is what the concrete evaluations below run on. *)

Module DecimalJs.

Inductive t : Type :=
| Fin (neg : bool) (c : Z) (e : Z)   (* (-1)^neg * c * 10^e, with 0 <= c *)
| Inf (neg : bool)
| NaN.

Definition precision : Z := 20.

Fixpoint digits_fuel (fuel : nat) (c : Z) : Z :=
  match fuel with
  | O => 0
  | S f => if c <? 10 then 1 else 1 + digits_fuel f (c / 10)
  end.

(** Number of decimal digits of a non-negative coefficient. *)
Definition digits (c : Z) : Z := digits_fuel (S (Z.to_nat (Z.log2 c))) c.

(** Rounding of a non-negative coefficient to [precision] digits; a tie
    goes up in magnitude. *)
Definition round (neg : bool) (c e : Z) : t :=
  let d := digits c in
  if d <=? precision then Fin neg c e
  else
    let k := d - precision in
    let q := c / 10 ^ k in
    let r := c mod 10 ^ k in
    Fin neg (if 2 * r >=? 10 ^ k then q + 1 else q) (e + k).

Definition lit (m e : Z) : t := Fin (m <? 0) (Z.abs m) e.

Definition isZero (x : t) : bool :=
  match x with Fin _ c _ => c =? 0 | _ => false end.

Definition isNeg (x : t) : bool :=
  match x with Fin neg _ _ => neg | Inf neg => neg | NaN => false end.

Definition negate (x : t) : t :=
  match x with
  | Fin neg c e => Fin (negb neg) c e
  | Inf neg => Inf (negb neg)
  | NaN => NaN
  end.

Definition signed (neg : bool) (c : Z) : Z := if neg then - c else c.

Definition add (x y : t) : t :=
  match x, y with
  | NaN, _ | _, NaN => NaN
  | Inf a, Inf b => if Bool.eqb a b then Inf a else NaN
  | Inf a, _ => Inf a
  | _, Inf b => Inf b
  | Fin n1 c1 e1, Fin n2 c2 e2 =>
      let e := Z.min e1 e2 in
      let s := signed n1 (c1 * 10 ^ (e1 - e)) + signed n2 (c2 * 10 ^ (e2 - e)) in
      if s =? 0 then Fin (n1 && n2) 0 e
      else round (s <? 0) (Z.abs s) e
  end.

Definition sub (x y : t) : t := add x (negate y).

Definition mul (x y : t) : t :=
  match x, y with
  | NaN, _ | _, NaN => NaN
  | Inf a, Inf b => Inf (xorb a b)
  | Inf a, Fin b c _ | Fin b c _, Inf a =>
      if c =? 0 then NaN else Inf (xorb a b)
  | Fin n1 c1 e1, Fin n2 c2 e2 => round (xorb n1 n2) (c1 * c2) (e1 + e2)
  end.

(** The quotient is computed with two digits more than the precision; the
    digits beyond can only matter at an exact tie, which the truncated
    quotient shows. *)
Definition div (x y : t) : t :=
  match x, y with
  | NaN, _ | _, NaN => NaN
  | Inf _, Inf _ => NaN
  | Inf a, Fin b _ _ => Inf (xorb a b)
  | Fin a _ _, Inf b => Fin (xorb a b) 0 0
  | Fin n1 c1 e1, Fin n2 c2 e2 =>
      if c2 =? 0 then (if c1 =? 0 then NaN else Inf (xorb n1 n2))
      else
        let k := Z.max 0 (precision + 2 + digits c2 - digits c1) in
        round (xorb n1 n2) ((c1 * 10 ^ k) / c2) (e1 - e2 - k)
  end.

(** [Z.sqrt] iterated: the integer part of the [2^n]-th root. *)
Fixpoint root2 (n : nat) (c : Z) : Z :=
  match n with
  | O => c
  | S n' => root2 n' (Z.sqrt c)
  end.

(** The [2^n]-th root of a non-negative number, from the integer root of
    the coefficient scaled to more than [2^n * (precision + 2)] digits. *)
Definition root (n : nat) (x : t) : t :=
  match x with
  | NaN => NaN
  | Inf neg => if neg then NaN else Inf false
  | Fin neg c e =>
      if c =? 0 then Fin neg 0 0
      else if neg then NaN
      else
        let k := 2 ^ Z.of_nat n in
        let j0 := Z.max 0 (k * (precision + 2) - digits c) in
        let j := j0 + (e - j0) mod k in
        round false (root2 n (c * 10 ^ j)) ((e - j) / k)
  end.

Definition sqrt (x : t) : t := root 1 x.

(** The value of a finite decimal when it is an integer. *)
Definition toInteger (x : t) : option Z :=
  match x with
  | Fin neg c e =>
      if 0 <=? e then Some (signed neg (c * 10 ^ e))
      else if c mod 10 ^ (- e) =? 0 then Some (signed neg (c / 10 ^ (- e)))
      else None
  | _ => None
  end.

Definition floor (x : t) : t :=
  match x with
  | Fin neg c e =>
      if 0 <=? e then x
      else
        let q := c / 10 ^ (- e) in
        let r := c mod 10 ^ (- e) in
        Fin neg (if neg && negb (r =? 0) then q + 1 else q) 0
  | _ => x
  end.

(** [isValue x m e]: [x] is the positive number [m * 10^e]. *)
Definition isValue (x : t) (m e : Z) : bool :=
  match x with
  | Fin false c e' =>
      let e0 := Z.min e e' in
      c * 10 ^ (e' - e0) =? m * 10 ^ (e - e0)
  | _ => false
  end.

(** [pow]: an integer exponent gives the exact power, rounded (its
    inverse for a negative one); the exponents 0.25 and 0.0625 give the
    correctly rounded root.  Other exponents are outside this model. *)
Definition pow (x y : t) : t :=
  match toInteger y with
  | Some n =>
      match x with
      | Fin neg c e =>
          let p := round (neg && Z.odd n) (c ^ Z.abs n) (e * Z.abs n) in
          if 0 <=? n then p else div (lit 1 0) p
      | _ => NaN
      end
  | None =>
      if isValue y 25 (-2) then root 2 x
      else if isValue y 625 (-4) then root 4 x
      else NaN
  end.

Definition toBN (x : t) : result Z :=
  match toInteger x with
  | Some z => Ok z
  | None => Err "Invalid character"
  end.

(** [new BN(BASIS_POINT_MAX * (1 - Math.pow(min / max, 1 / n)))] for
    [0 <= min <= max], [0 < max] and [0 < n]: the largest [r] with
    [(1 - r / 10000)^n >= min / max], found by bisection. *)
Fixpoint reductionSearch (fuel : nat) (lo hi mn mx n : Z) : Z :=
  match fuel with
  | O => lo
  | S f =>
      if hi - lo <=? 1 then lo
      else
        let mid := (lo + hi) / 2 in
        if mn * 10000 ^ n <=? mx * (10000 - mid) ^ n
        then reductionSearch f mid hi mn mx n
        else reductionSearch f lo mid mn mx n
  end.

Definition reductionFactorOf (mn mx n : Z) : result Z :=
  if (0 <=? mn) && (mn <=? mx) && (0 <? mx) && (0 <? n)
  then Ok (reductionSearch 20 0 10001 mn mx n)
  else Err "Invalid number".

(** The real number that a finite decimal denotes. *)
Definition valueR (x : t) : R :=
  match x with
  | Fin neg c e => (IZR (signed neg c) * powerRZ 10 e)%R
  | _ => 0%R
  end.

End DecimalJs.

#[export] Instance decimalJs : Numeric := {|
  Decimal := DecimalJs.t;
  D_lit := DecimalJs.lit;
  D_add := DecimalJs.add;
  D_sub := DecimalJs.sub;
  D_mul := DecimalJs.mul;
  D_div := DecimalJs.div;
  D_sqrt := DecimalJs.sqrt;
  D_pow := DecimalJs.pow;
  D_floor := DecimalJs.floor;
  D_isNeg := DecimalJs.isNeg;
  BN_ofFixed := DecimalJs.toBN;
  D_priceRatio := fun bps => DecimalJs.lit (bps + BASIS_POINT_MAX) (-4);
  exponentialReductionFactor := DecimalJs.reductionFactorOf
|}.

(** ** Models of the modules that the embedded files import *)

Module SpecModel.

(** Division of integers, rounded up or down. *)
Definition divRound (num den : Z) (round : Rounding) : Z :=
  match round with
  | Up => - ((- num) / den)
  | Down => num / den
  end.

(** Modelled from the spec: math/curve is not among the embedded files.
    Section 4.2 gives [deltaBase] as [liquidity * (1/lower - 1/upper)] with
    an explicit rounding direction; a zero bound is rejected. *)
Definition getDeltaAmountBaseUnsigned (lowerSqrtPrice upperSqrtPrice liquidity : Z)
    (round : Rounding) : result Z :=
  if lowerSqrtPrice * upperSqrtPrice =? 0 then Err "Sqrt price cannot be zero"
  else Ok (divRound (liquidity * (upperSqrtPrice - lowerSqrtPrice))
                    (lowerSqrtPrice * upperSqrtPrice) round).

(** Modelled from the spec: math/curve is not among the embedded files.
    Section 4.2 gives [deltaQuote] as [liquidity * (upper - lower)]; square
    root prices are Q64.64 and liquidity carries the same factor, so the
    product is scaled down by [2^128], the factor that [getTwoCurve] and
    [getMigrationBaseToken] use. *)
Definition getDeltaAmountQuoteUnsigned (lowerSqrtPrice upperSqrtPrice liquidity : Z)
    (round : Rounding) : result Z :=
  Ok (divRound (liquidity * (upperSqrtPrice - lowerSqrtPrice)) (2 ^ 128) round).

(** Modelled from the spec: math/curve is not among the embedded files.
    Section 4.2: the liquidity that produces a base amount over a price
    interval, the inverse of [deltaBase]; equal bounds are rejected. *)
Definition getInitialLiquidityFromDeltaBase (baseAmount sqrtMaxPrice sqrtPrice : Z)
    : result Z :=
  if sqrtMaxPrice - sqrtPrice =? 0 then Err "Division by zero"
  else Ok (Z.quot (baseAmount * sqrtPrice * sqrtMaxPrice)
                  (sqrtMaxPrice - sqrtPrice)).

(** Modelled from the spec: math/curve is not among the embedded files.
    Section 4.2: the liquidity that produces a quote amount over a price
    interval, the inverse of [deltaQuote]; equal bounds are rejected. *)
Definition getInitialLiquidityFromDeltaQuote (quoteAmount sqrtMinPrice sqrtPrice : Z)
    : result Z :=
  if sqrtPrice - sqrtMinPrice =? 0 then Err "Division by zero"
  else Ok (Z.quot (quoteAmount * 2 ^ 128) (sqrtPrice - sqrtMinPrice)).

(** Modelled from the spec: math/curve is not among the embedded files.
    Section 4.2: the price after an input amount, from the two relations
    above, by the token supplied; zero liquidity is rejected. *)
Definition getNextSqrtPriceFromInput (sqrtPrice liquidity amountIn : Z)
    (baseForQuote : bool) : result Z :=
  if liquidity =? 0 then Err "Liquidity cannot be zero"
  else if baseForQuote then
    let denominator := liquidity + amountIn * sqrtPrice in
    if denominator =? 0 then Err "Division by zero"
    else Ok (divRound (liquidity * sqrtPrice) denominator Up)
  else Ok (sqrtPrice + Z.quot (amountIn * 2 ^ 128) liquidity).

(** Modelled from the spec: helpers/utils is not among the embedded files.
    A fee in basis points as a numerator over [FEE_DENOMINATOR]: the
    conversion under which [MAX_FEE_BPS] is [MAX_FEE_NUMERATOR] and
    [MIN_FEE_BPS] is [MIN_FEE_NUMERATOR]. *)
Definition bpsToFeeNumerator (bps : Z) : Z :=
  Z.quot (bps * FEE_DENOMINATOR) BASIS_POINT_MAX.

(** Modelled from the spec: helpers/utils is not among the embedded files.
    A whole amount in the smallest unit of a token with [tokenDecimal]
    decimals. *)
Definition convertToLamports (amount tokenDecimal : Z) : Z :=
  amount * 10 ^ tokenDecimal.

(** Modelled from the spec: helpers/utils is not among the embedded files.
    Section 4.1: a decimal is truncated to an integer at the final step. *)
Definition fromDecimalToBN (value : DecimalJs.t) : result Z :=
  DecimalJs.toBN (DecimalJs.floor value).

End SpecModel.

#[export] Instance specCurveMath : CurveMath := {|
  getDeltaAmountBaseUnsigned := SpecModel.getDeltaAmountBaseUnsigned;
  getDeltaAmountQuoteUnsigned := SpecModel.getDeltaAmountQuoteUnsigned;
  getInitialLiquidityFromDeltaBase := SpecModel.getInitialLiquidityFromDeltaBase;
  getInitialLiquidityFromDeltaQuote := SpecModel.getInitialLiquidityFromDeltaQuote;
  getNextSqrtPriceFromInput := SpecModel.getNextSqrtPriceFromInput
|}.

#[export] Instance specUtils : @Utils decimalJs := {|
  bpsToFeeNumerator := SpecModel.bpsToFeeNumerator;
  convertToLamports := SpecModel.convertToLamports;
  fromDecimalToBN := SpecModel.fromDecimalToBN;
  convertDecimalToBN := SpecModel.fromDecimalToBN
|}.

(** ** Vocabulary of the statements *)

(** The one combination whose fee is taken from the caller. *)
Definition isCustomizableV2 (o : MigrationOption) (f : MigrationFeeOption) : bool :=
  match o, f with
  | MET_DAMM_V2, Customizable => true
  | _, _ => false
  end.

Section Vocabulary.
Context `{NU : Numeric} {CM : CurveMath} {UT : Utils}.

(** The supply that [getTotalSupplyFromCurve] reconstructs for a
    configuration, from a candidate curve and the leftover in lamports. *)
Definition reconstructedSupply (cfg : ConfigParameters)
    (candidate : list LiquidityDistributionParameters) (totalLeftover : Z)
    : result Z :=
  getTotalSupplyFromCurve (cfg_migrationQuoteThreshold cfg)
    (cfg_sqrtStartPrice cfg) candidate (cfg_lockedVesting cfg)
    (cfg_migrationOption cfg) totalLeftover
    (feePercentage (cfg_migrationFee cfg)).

(** The reconstructed supply exceeds the declared one, and the excess is
    not strictly less than the leftover. *)
Definition beyondTolerance (totalDynamicSupply totalSupply totalLeftover : Z)
    : Prop :=
  totalDynamicSupply > totalSupply
  /\ ~ (totalDynamicSupply - totalSupply < totalLeftover).

(** A returned configuration went through the verification pass: the
    supply reconstructed from its candidate curve is within tolerance. *)
Definition verified (cfg : ConfigParameters)
    (candidate : list LiquidityDistributionParameters) (totalLeftover : Z)
    : Prop :=
  exists totalDynamicSupply,
    reconstructedSupply cfg candidate totalLeftover = Ok totalDynamicSupply
    /\ ~ beyondTolerance totalDynamicSupply (cfg_preMigrationTokenSupply cfg)
           totalLeftover.

Definition totalLeftoverOf (b : BuildCurveBaseParams) : Z :=
  convertToLamports (leftover b) (tokenBaseDecimal b).

(** One of the two liquidity values solved for a candidate mid price is
    negative. *)
Definition solvedNegative (migrationSqrtPrice midSqrtPrice initialSqrtPrice
    swapAmount migrationQuoteThreshold : Z) : bool :=
  D_isNeg (getTwoCurve_l0 migrationSqrtPrice midSqrtPrice initialSqrtPrice
             swapAmount migrationQuoteThreshold)
  || D_isNeg (getTwoCurve_l1 migrationSqrtPrice midSqrtPrice initialSqrtPrice
                swapAmount migrationQuoteThreshold).

(** What [getTwoCurve] returns for an infeasible candidate. *)
Definition infeasibleCurve : CurveResult :=
  {| cr_isOk := false; cr_sqrtStartPrice := 0; cr_curve := [] |}.

End Vocabulary.

(** ** Error budget of the square-root price round trip

    decimal.js keeps 20 significant digits and rounds half up: a rounded
    operation moves a positive value by a relative error of at most half a
    unit in the twentieth digit.  The constants below compose these errors
    along [getSqrtPriceFromPrice] followed by [getPriceFromSqrtPrice]. *)

Module RoundTrip.

(** [x] is [y] up to the relative error [t]. *)
Definition near (t x y : R) : Prop :=
  ((1 - t) * y <= x <= (1 + t) * y)%R.

(** Half a unit in the last of 20 significant digits. *)
Definition halfUlp : R := (/ 20000000000000000000)%R.

(** Relative error of a quotient: the quotient is cut to 22 digits before
    it is rounded to 20. *)
Definition quotientError : R := (halfUlp + / 1000000000000000000000)%R.

(** Relative error of the whole round trip, apart from the floor. *)
Definition roundTripError : R := (/ 1000000000000000000)%R.

(** One unit in the last place of a Q64.64 number. *)
Definition ulpQ64 : R := (/ 18446744073709551616)%R.

(** Error after the division by the decimal factor and the square root,
    squared again. *)
Definition budget1 : R := (halfUlp + halfUlp + halfUlp * halfUlp)%R.
Definition budget2 : R := (budget1 + 3 * halfUlp + budget1 * (3 * halfUlp))%R.
Definition budget3 : R := (budget2 + quotientError + budget2 * quotientError)%R.

(** Error of the way back: a product, a quotient and a product. *)
Definition budget4 : R := (halfUlp + quotientError + halfUlp * quotientError)%R.
Definition budget5 : R := (budget4 + halfUlp + budget4 * halfUlp)%R.

(** [2^64 * 2^64] over the 20-digit value that decimal.js holds for
    [2^128]. *)
Definition two128Ratio : R :=
  (18446744073709551616 * 18446744073709551616
   / 340282366920938463460000000000000000000)%R.

End RoundTrip.

(** ** Concrete requests

    Requests in the style of the SDK's documentation: a supply of one
    billion tokens, a flat 1% base fee with the dynamic fee on, no vesting.
    They are evaluated on the models above. *)

Module Requests.

Definition noVesting : LockedVestingParam :=
  {| totalLockedVestingAmount := 0;
     numberOfVestingPeriod := 0;
     lv_cliffUnlockAmount := 0;
     totalVestingDuration := 0;
     lv_cliffDurationFromMigrationTime := 0 |}.

Definition flatFee (bps : Z) : BaseFeeParams :=
  {| bfp_baseFeeMode := FeeSchedulerLinear;
     bfp_rateLimiterParam := None;
     bfp_feeSchedulerParam :=
       Some {| fs_startingFeeBps := bps; fs_endingFeeBps := bps;
               fs_numberOfPeriod := 0; fs_totalDuration := 0 |} |}.

Definition base (option_ : MigrationOption) (baseDecimal quoteDecimal : Z)
    (leftover_ migrationFeePercent : Z) : BuildCurveBaseParams :=
  {| totalTokenSupply := 1000000000;
     migrationOption := option_;
     tokenBaseDecimal := baseDecimal;
     tokenQuoteDecimal := quoteDecimal;
     lockedVestingParam := noVesting;
     baseFeeParams := flatFee 100;
     dynamicFeeEnabled := true;
     activationType := Slot;
     collectFeeMode := QuoteToken;
     migrationFeeOption := FixedBps25;
     tokenType := 0;
     partnerLpPercentage := 0;
     creatorLpPercentage := 0;
     partnerLockedLpPercentage := 100;
     creatorLockedLpPercentage := 0;
     creatorTradingFeePercentage := 0;
     leftover := leftover_;
     tokenUpdateAuthority := 1;
     migrationFee := {| feePercentage := migrationFeePercent;
                        creatorFeePercentage := 0 |};
     migratedPoolFee := None;
     pausableMode := None;
     noMigrationPartnerSurplusPercentage := None;
     noMigrationCreatorSurplusPercentage := None;
     noMigrationProtocolSurplusPercentage := None |}.

(** 20% of the supply at migration, a threshold of 80 quote tokens. *)
Definition single : BuildCurveParams :=
  {| bc_base := base MET_DAMM_V2 6 9 0 0;
     bc_percentageSupplyOnMigration := D_ofZ 20;
     bc_migrationQuoteThreshold := 80 |}.

(** The same split with a migration fee of 80%: the closed form puts the
    start price above the migration price. *)
Definition singleHighFee : BuildCurveParams :=
  {| bc_base := base MET_DAMM 9 9 0 80;
     bc_percentageSupplyOnMigration := D_ofZ 20;
     bc_migrationQuoteThreshold := 80 |}.

Definition twoSegments (leftover_ : Z) : BuildCurveWithTwoSegmentsParams :=
  {| ts_base := base MET_DAMM_V2 6 9 leftover_ 0;
     ts_initialMarketCap := D_ofZ 20000;
     ts_migrationMarketCap := D_ofZ 1000000;
     ts_percentageSupplyOnMigration := 20 |}.

Definition midPrice : BuildCurveWithMidPriceParams :=
  {| mp_base := base MET_DAMM_V2 6 9 1000 0;
     mp_initialMarketCap := D_ofZ 20000;
     mp_migrationMarketCap := D_ofZ 1000000;
     mp_midPrice := D_lit 2 (-4);
     mp_percentageSupplyOnMigration := 20 |}.

Definition liquidityWeights : BuildCurveWithLiquidityWeightsParams :=
  {| lw_base := base MET_DAMM_V2 6 9 1000 0;
     lw_initialMarketCap := D_ofZ 30;
     lw_migrationMarketCap := D_ofZ 300;
     lw_liquidityWeights :=
       map (fun i => D_ofZ (2 ^ i))
           [0; 1; 2; 3; 4; 5; 6; 7; 8; 9; 10; 11; 12; 13; 14; 15] |}.

End Requests.

(** ** Vocabulary of the properties of the helpers *)

Definition sumZ (l : list Z) : Z := fold_right Z.add 0 l.

Section Capacities.
Context {CM : CurveMath}.

(** The quote amount that each segment of a curve holds, rounded up: what
    the loops over a curve ask [getDeltaAmountQuoteUnsigned] segment by
    segment. *)
Fixpoint segmentCapacities (lowerSqrtPrice : Z)
    (curve : list LiquidityDistributionParameters) : result (list Z) :=
  match curve with
  | [] => Ok []
  | c :: rest =>
      a <- getDeltaAmountQuoteUnsigned lowerSqrtPrice (sqrtPrice c)
             (liquidity c) Up ;;
      r <- segmentCapacities (sqrtPrice c) rest ;;
      Ok (a :: r)
  end.

End Capacities.

(** The longest limiter window of an activation type. *)
Definition maxRateLimiterDuration (activationType : ActivationType) : Z :=
  match activationType with
  | Slot => MAX_RATE_LIMITER_DURATION_IN_SLOTS
  | Timestamp => MAX_RATE_LIMITER_DURATION_IN_SECONDS
  end.

(** ** Sample inputs of the helpers *)

Module Samples.

Definition key1 : list Byte.byte := map (fun _ => Byte.x01) (seq 0 31) ++ [Byte.xff].
Definition key2 : list Byte.byte := map (fun _ => Byte.x01) (seq 0 31) ++ [Byte.x02].

(** Two segments above the start price [2^64]. *)
Definition curve2 : list LiquidityDistributionParameters :=
  [ {| sqrtPrice := 2 * 2 ^ 64; liquidity := 1000 * 2 ^ 64 |};
    {| sqrtPrice := 3 * 2 ^ 64; liquidity := 500 * 2 ^ 64 |} ].

Definition config2 : PoolConfig :=
  {| pc_sqrtStartPrice := 2 ^ 64; pc_curve := curve2 |}.

Definition rateLimiter : BaseFeeParams :=
  {| bfp_baseFeeMode := RateLimiter;
     bfp_rateLimiterParam :=
       Some {| rl_baseFeeBps := 100; rl_feeIncrementBps := 10;
               rl_referenceAmount := 1; rl_maxLimiterDuration := 600 |};
     bfp_feeSchedulerParam := None |}.

Definition linearScheduler : BaseFeeParams :=
  {| bfp_baseFeeMode := FeeSchedulerLinear;
     bfp_rateLimiterParam := None;
     bfp_feeSchedulerParam :=
       Some {| fs_startingFeeBps := 5000; fs_endingFeeBps := 100;
               fs_numberOfPeriod := 144; fs_totalDuration := 1000 |} |}.

End Samples.
(** * Properties *)

(** ** The error monad *)

Lemma bind_Ok_inv {A B : Type} (r : result A) (k : A -> result B) (b : B) :
  bind r k = Ok b -> exists a, r = Ok a /\ k a = Ok b.
Proof.
  destruct r as [a|m]; simpl; intros H; [eauto | discriminate].
Qed.

Lemma throwIf_Ok_inv (c : bool) (msg : string) (u : unit) :
  throwIf c msg = Ok u -> c = false.
Proof.
  unfold throwIf; destruct c; [discriminate | reflexivity].
Qed.

(** Inversion of a successful chain of binds, one statement at a time. *)
Ltac inv_bind H :=
  let a := fresh "v" in
  let Ha := fresh "E" in
  apply bind_Ok_inv in H; destruct H as (a & Ha & H).

Tactic Notation "step" hyp(H) "as" ident(a) ident(Ha) :=
  apply bind_Ok_inv in H; destruct H as (a & Ha & H).

Ltac inv_throw H :=
  let u := fresh "u" in
  let Hu := fresh "G" in
  apply bind_Ok_inv in H; destruct H as (u & Hu & H);
  apply throwIf_Ok_inv in Hu.

Lemma BaseFeeMode_eqb_eq (a b : BaseFeeMode) :
  BaseFeeMode_eqb a b = true <-> a = b.
Proof.
  destruct a, b; simpl; split; intros H; try reflexivity; discriminate.
Qed.

(** ** Rate limiter window *)

(** Claim C5.  [checkRateLimiterApplied] answers true exactly when the base
    fee mode is the rate limiter, the swap is quote-to-base
    ([swapBaseForQuote] is false) and the current point lies in the closed
    interval from the activation point to the activation point plus the
    maximum limiter duration. *)
Theorem checkRateLimiterApplied_iff :
  forall (mode : BaseFeeMode) (swapBaseForQuote : bool)
         (currentPoint activationPoint maxLimiterDuration : Z),
    checkRateLimiterApplied mode swapBaseForQuote currentPoint activationPoint
      maxLimiterDuration = true
    <-> (mode = RateLimiter
         /\ swapBaseForQuote = false
         /\ activationPoint <= currentPoint <= activationPoint + maxLimiterDuration).
Proof.
  intros mode s c a d. unfold checkRateLimiterApplied.
  rewrite !andb_true_iff, BaseFeeMode_eqb_eq, negb_true_iff.
  rewrite Z.geb_le, Z.leb_le. tauto.
Qed.

(** ** Migrated pool fee *)

(** Claim C9.  [getMigratedPoolFeeParams] returns the default fee object
    (all three fields zero) for every combination of migration option and
    fee option except MET_DAMM_V2 with Customizable, where it returns the
    caller's [migratedPoolFee] unchanged; in the other combinations the
    caller's value has no influence on the result and is never rejected. *)
Theorem getMigratedPoolFeeParams_default_unless_customizable :
  forall (o : MigrationOption) (f : MigrationFeeOption)
         (m : option MigratedPoolFee),
    getMigratedPoolFeeParams o f m
    = (if isCustomizableV2 o f then m
       else Some {| mpf_collectFeeMode := 0; mpf_dynamicFee := 0;
                    mpf_poolFeeBps := 0 |}).
Proof.
  intros o f m. destruct o, f; reflexivity.
Qed.

(** ** Locked vesting *)



(** ** Properties that hold over every implementation of the interfaces *)

Section Generic.
Context `{NU : Numeric} {CM : CurveMath} {UT : Utils}.

(** *** Tokenomics *)

(** Claim C3.  The four components that [getTokenomics] returns add up to
    the total token supply exactly, in integer token units, whatever the
    market caps, vesting and leftover amounts are. *)
Theorem getTokenomics_conserves_supply :
  forall (initialMarketCap migrationMarketCap : Decimal)
         (totalLockedVestingAmount totalLeftover totalTokenSupply : Z)
         (r : Tokenomics),
    getTokenomics initialMarketCap migrationMarketCap totalLockedVestingAmount
      totalLeftover totalTokenSupply = Ok r ->
    bondingCurveSupply r + migrationSupply r + leftoverSupply r
      + lockedVestingSupply r = totalTokenSupply.
Proof.
  intros imc mmc vest left total r H.
  unfold getTokenomics in H.
  inv_bind H. injection H as <-.
  cbn [bondingCurveSupply migrationSupply leftoverSupply lockedVestingSupply].
  ring.
Qed.

(** *** Base fee *)

(** The rate limiter variant checks both bounds before it returns. *)
Lemma getRateLimiterParams_cliff_in_bounds :
  forall baseFeeBps feeIncrementBps referenceAmount maxLimiterDuration
         tokenQuoteDecimal activationType (fee : BaseFee),
    getRateLimiterParams baseFeeBps feeIncrementBps referenceAmount
      maxLimiterDuration tokenQuoteDecimal activationType = Ok fee ->
    MIN_FEE_NUMERATOR <= cliffFeeNumerator fee <= MAX_FEE_NUMERATOR
    /\ baseFeeMode fee = RateLimiter.
Proof.
  intros bps inc ref dur q act fee H.
  unfold getRateLimiterParams in H.
  do 4 inv_throw H. inv_bind H. do 3 inv_throw H.
  injection H as <-. cbn [cliffFeeNumerator baseFeeMode].
  apply orb_false_iff in G4. destruct G4 as [Glo Ghi].
  apply Z.ltb_ge in Glo. rewrite Z.gtb_ltb in Ghi. apply Z.ltb_ge in Ghi.
  auto.
Qed.

(** *** Dynamic fee *)

(** Claim C7.  For a base fee whose numerator is not negative, the
    parameters that [getDynamicFeeParams] returns keep the volatility
    surcharge within 20% of the base fee numerator: [variableFeeControl]
    times the square of [maxVolatilityAccumulator * binStep], scaled down
    by 100,000,000,000 (rounding up, as the rounding offset 99,999,999,999
    of the constants does, and a fortiori rounding down), is at most a
    fifth of [bpsToFeeNumerator baseFeeBps]. *)
Theorem getDynamicFeeParams_surcharge_bound :
  forall (baseFeeBps maxPriceChangeBps : Z) (r : DynamicFeeParameters),
    0 <= bpsToFeeNumerator baseFeeBps ->
    getDynamicFeeParams baseFeeBps maxPriceChangeBps = Ok r ->
    let square := (maxVolatilityAccumulator r * binStep r) ^ 2 in
    100 * ((variableFeeControl r * square + 99999999999) / 100000000000)
      <= 20 * bpsToFeeNumerator baseFeeBps
    /\ 100 * ((variableFeeControl r * square) / 100000000000)
      <= 20 * bpsToFeeNumerator baseFeeBps.
Proof.
  intros bps chg r Hbase H.
  unfold getDynamicFeeParams in H.
  inv_throw H. inv_bind H. inv_bind H. inv_bind H. inv_bind H.
  inv_bind H. inv_bind H. injection H as <-.
  cbn [maxVolatilityAccumulator variableFeeControl binStep].
  unfold BN_toNumber in E3, E4.
  destruct (Z.abs (v0 * 2 * BASIS_POINT_MAX) <? 2 ^ 53); [| discriminate].
  injection E3 as <-.
  destruct (Z.abs v2 <? 2 ^ 53); [| discriminate].
  injection E4 as <-.
  set (sq := (v0 * 2 * BASIS_POINT_MAX * BIN_STEP_BPS_DEFAULT) ^ 2) in *.
  set (bn := bpsToFeeNumerator bps) in *.
  unfold BN_divn in E1. cbn in E1. injection E1 as <-.
  unfold BN_div in E2. destruct (sq =? 0) eqn:Esq; [discriminate |].
  injection E2 as <-. apply Z.eqb_neq in Esq.
  assert (Hsq : 0 < sq).
  { assert (0 <= sq) by (unfold sq; apply Z.pow_even_nonneg; exists 1; reflexivity; lia).
    lia. }
  set (maxDyn := Z.quot (bn * 20) 100) in *.
  assert (Hmax : 0 <= maxDyn /\ 100 * maxDyn <= 20 * bn).
  { unfold maxDyn. rewrite Z.quot_div_nonneg by lia.
    split; [apply Z.div_pos; lia |].
    pose proof (Z.mul_div_le (bn * 20) 100). lia. }
  set (vFee := maxDyn * 100000000000 - 99999999999) in *.
  assert (Hx : Z.quot vFee sq * sq <= maxDyn * 100000000000 - 99999999999
               \/ (maxDyn = 0 /\ Z.quot vFee sq * sq <= 0)).
  { destruct (Z.le_gt_cases 0 vFee) as [Hv | Hv].
    - left. rewrite Z.quot_div_nonneg by lia.
      pose proof (Z.mul_div_le vFee sq Hsq). unfold vFee in *. lia.
    - right. split; [unfold vFee in Hv; lia |].
      pose proof (Z.quot_opp_l vFee sq) as Ho.
      assert (Z.quot (- vFee) sq = - Z.quot vFee sq) by (apply Ho; lia).
      assert (0 <= Z.quot (- vFee) sq) by (apply Z.quot_pos; lia).
      nia. }
  assert (Hup : (Z.quot vFee sq * sq + 99999999999) / 100000000000 <= maxDyn).
  { destruct Hx as [Hx | [Hz Hx]].
    - apply Z.div_le_upper_bound; lia.
    - rewrite Hz. apply Z.lt_succ_r. apply Z.div_lt_upper_bound; lia. }
  assert (Hdown : Z.quot vFee sq * sq / 100000000000
                  <= (Z.quot vFee sq * sq + 99999999999) / 100000000000).
  { apply Z.div_le_mono; lia. }
  split; lia.
Qed.

End Generic.

(** ** Curve construction *)

Section Construction.
Context `{NU : Numeric} {CM : CurveMath} {UT : Utils}.

(** The fields of the configuration literal that the statements read. *)
Lemma instructionParams_fields :
  forall b baseFee lockedVesting mpf totalSupply threshold start curve cfg,
    instructionParams b baseFee lockedVesting mpf totalSupply threshold start
      curve = Ok cfg ->
    cfg_curve cfg = curve
    /\ cfg_sqrtStartPrice cfg = start
    /\ cfg_migrationQuoteThreshold cfg = threshold
    /\ cfg_lockedVesting cfg = lockedVesting
    /\ cfg_migrationOption cfg = migrationOption b
    /\ cfg_preMigrationTokenSupply cfg = totalSupply
    /\ cfg_migrationFee cfg = migrationFee b.
Proof.
  intros b bf lv mpf ts th st cv cfg H.
  unfold instructionParams in H.
  inv_bind H. inv_bind H. injection H as <-. cbn. tauto.
Qed.

Lemma getFirstCurve_shape :
  forall migrationSqrtPrice migrationBaseAmount swapAmount threshold fee start curve,
    getFirstCurve migrationSqrtPrice migrationBaseAmount swapAmount threshold fee
      = Ok (start, curve) ->
    exists l, curve = [ {| sqrtPrice := migrationSqrtPrice; liquidity := l |} ].
Proof.
  intros mp mb sw th fee st cv H.
  unfold getFirstCurve in H. cbv zeta in H.
  inv_bind H. inv_bind H. injection H as _ <-. eauto.
Qed.



Lemma checkLeftOverDelta_Ok :
  forall totalDynamicSupply totalSupply totalLeftover u,
    checkLeftOverDelta totalDynamicSupply totalSupply totalLeftover = Ok u ->
    ~ beyondTolerance totalDynamicSupply totalSupply totalLeftover.
Proof.
  intros tds ts tl u H [Hgt Hnlt].
  unfold checkLeftOverDelta in H.
  assert (G : (tds >? ts) = true) by (rewrite Z.gtb_ltb; apply Z.ltb_lt; lia).
  rewrite G in H. apply throwIf_Ok_inv in H.
  apply negb_false_iff, Z.ltb_lt in H. contradiction.
Qed.

Lemma checkLeftOverDelta_Err :
  forall totalDynamicSupply totalSupply totalLeftover,
    beyondTolerance totalDynamicSupply totalSupply totalLeftover ->
    checkLeftOverDelta totalDynamicSupply totalSupply totalLeftover
    = Err "leftOverDelta must be less than totalLeftover".
Proof.
  intros tds ts tl [Hgt Hnlt].
  unfold checkLeftOverDelta.
  assert (G : (tds >? ts) = true) by (rewrite Z.gtb_ltb; apply Z.ltb_lt; lia).
  rewrite G.
  assert (G' : (tds - ts <? tl) = false) by (apply Z.ltb_ge; lia).
  rewrite G'. reflexivity.
Qed.

(** The verification pass, as the three multi-segment builders end with
    it: the supply is reconstructed from the very curve, start price,
    threshold, vesting and fee that go into the configuration. *)
Lemma verified_of_check :
  forall b baseFee lockedVesting mpf totalSupply threshold start curve
         totalDynamicSupply u cfg,
    getTotalSupplyFromCurve threshold start curve lockedVesting
      (migrationOption b) (totalLeftoverOf b)
      (feePercentage (migrationFee b)) = Ok totalDynamicSupply ->
    checkLeftOverDelta totalDynamicSupply totalSupply (totalLeftoverOf b) = Ok u ->
    instructionParams b baseFee lockedVesting mpf totalSupply threshold start
      curve = Ok cfg ->
    verified cfg (cfg_curve cfg) (totalLeftoverOf b).
Proof.
  intros b bf lv mpf ts th st cv tds u cfg Hs Hc Hi.
  apply instructionParams_fields in Hi.
  destruct Hi as (Hcv & Hst & Hth & Hlv & Ho & Hp & Hf).
  exists tds. unfold reconstructedSupply.
  rewrite Hcv, Hst, Hth, Hlv, Ho, Hp, Hf.
  split; [exact Hs | exact (checkLeftOverDelta_Ok _ _ _ _ Hc)].
Qed.


(** *** Two segments *)

Lemma getTwoCurve_negative :
  forall mig mid init swap threshold,
    solvedNegative mig mid init swap threshold = true ->
    getTwoCurve mig mid init swap threshold = Ok infeasibleCurve.
Proof.
  intros mig mid init swap th H.
  unfold solvedNegative, getTwoCurve_l0, getTwoCurve_l1 in H.
  unfold getTwoCurve. cbv zeta in *. rewrite H. reflexivity.
Qed.

Lemma getTwoCurve_feasible :
  forall mig mid init swap threshold r,
    solvedNegative mig mid init swap threshold = false ->
    getTwoCurve mig mid init swap threshold = Ok r ->
    cr_isOk r = true
    /\ cr_sqrtStartPrice r = init
    /\ exists liquidity0 liquidity1,
         cr_curve r = [ {| sqrtPrice := mid; liquidity := liquidity0 |};
                        {| sqrtPrice := mig; liquidity := liquidity1 |} ].
Proof.
  intros mig mid init swap th r Hneg H.
  unfold solvedNegative, getTwoCurve_l0, getTwoCurve_l1 in Hneg.
  unfold getTwoCurve in H. cbv zeta in *. rewrite Hneg in H.
  step H as liquidity0 E0. step H as liquidity1 E1.
  injection H as <-. cbn. eauto.
Qed.

Lemma getTwoCurve_isOk_iff :
  forall mig mid init swap threshold r,
    getTwoCurve mig mid init swap threshold = Ok r ->
    (cr_isOk r = false /\ cr_curve r = [])
    <-> solvedNegative mig mid init swap threshold = true.
Proof.
  intros mig mid init swap th r H.
  destruct (solvedNegative mig mid init swap th) eqn:Hneg.
  - rewrite (getTwoCurve_negative _ _ _ _ _ Hneg) in H.
    injection H as <-. cbn. tauto.
  - destruct (getTwoCurve_feasible _ _ _ _ _ _ Hneg H) as (Hok & _).
    rewrite Hok. split; [intros [? _] | intros ?]; discriminate.
Qed.

(** The loop over the candidates keeps the first feasible one and has
    skipped only infeasible ones before it. *)
Lemma tryMidPrices_first_feasible :
  forall midPrices mig init swap threshold start curve,
    tryMidPrices midPrices mig init swap threshold = Ok (start, curve) ->
    (exists skipped mid rest r,
        midPrices = skipped ++ mid :: rest
        /\ Forall (fun m => solvedNegative mig m init swap threshold = true)
             skipped
        /\ solvedNegative mig mid init swap threshold = false
        /\ getTwoCurve mig mid init swap threshold = Ok r
        /\ start = cr_sqrtStartPrice r /\ curve = cr_curve r)
    \/ (Forall (fun m => solvedNegative mig m init swap threshold = true)
          midPrices
        /\ start = 0 /\ curve = []).
Proof.
  induction midPrices as [| m rest IH]; intros mig init swap th start curve H.
  - injection H as <- <-. right. auto.
  - cbn [tryMidPrices] in H. step H as r Er.
    destruct (solvedNegative mig m init swap th) eqn:Hneg.
    + rewrite (getTwoCurve_negative _ _ _ _ _ Hneg) in Er.
      injection Er as <-. cbn [cr_isOk infeasibleCurve] in H.
      destruct (IH _ _ _ _ _ _ H)
        as [(skipped & mid & rest' & r & -> & Hsk & Hmid & Hr & Hs & Hc)
           | (Hall & Hs & Hc)].
      * left. exists (m :: skipped), mid, rest', r.
        repeat split; auto.
      * right. auto.
    + destruct (getTwoCurve_feasible _ _ _ _ _ _ Hneg Er) as (Hok & _).
      rewrite Hok in H. injection H as <- <-.
      left. exists [], m, rest, r. repeat split; auto.
Qed.

Lemma midPricesOf_three :
  forall mig init midPrices,
    midPricesOf mig init = Ok midPrices ->
    exists m3 m2 m1, midPrices = [m3; m2; m1].
Proof.
  intros mig init mids H.
  unfold midPricesOf in H. cbv zeta in H.
  step H as m1 E1. step H as m2 E2. step H as m3 E3.
  injection H as <-. eauto.
Qed.

Lemma getTotalSupplyFromCurve_empty :
  forall threshold start lockedVesting option_ totalLeftover fee,
    getTotalSupplyFromCurve threshold start [] lockedVesting option_
      totalLeftover fee = Err "Curve is empty".
Proof. reflexivity. Qed.

(** Claim C2.  [getTwoCurve] returns [isOk = false] with an empty curve
    exactly when one of the two solved liquidity values is negative, and
    every configuration that [buildCurveWithTwoSegments] returns carries
    the start price and the curve of the first of its three candidate mid
    prices, in the order of the array, for which [getTwoCurve] succeeds;
    every candidate tried before it was skipped for a negative solved
    liquidity. *)
Theorem two_segments_first_feasible_candidate :
  (forall mig mid init swap threshold,
      (solvedNegative mig mid init swap threshold = true ->
       getTwoCurve mig mid init swap threshold = Ok infeasibleCurve)
      /\ (forall r,
             getTwoCurve mig mid init swap threshold = Ok r ->
             (cr_isOk r = false /\ cr_curve r = [])
             <-> solvedNegative mig mid init swap threshold = true))
  /\ (forall p cfg,
         buildCurveWithTwoSegments p = Ok cfg ->
         exists mig init swap threshold m3 m2 m1 skipped mid rest r,
           midPricesOf mig init = Ok [m3; m2; m1]
           /\ [m3; m2; m1] = skipped ++ mid :: rest
           /\ Forall (fun m => solvedNegative mig m init swap threshold = true)
                skipped
           /\ solvedNegative mig mid init swap threshold = false
           /\ getTwoCurve mig mid init swap threshold = Ok r
           /\ cr_isOk r = true
           /\ cfg_sqrtStartPrice cfg = cr_sqrtStartPrice r
           /\ cfg_curve cfg = cr_curve r).
Proof.
  split.
  - intros mig mid init swap th. split.
    + apply getTwoCurve_negative.
    + intros r. apply getTwoCurve_isOk_iff.
  - intros p cfg H.
    unfold buildCurveWithTwoSegments in H. cbv zeta in H.
    step H as baseFee EbaseFee.
    step H as lockedVesting ElockedVesting.
    step H as threshold Ethreshold.
    step H as quoteAmount EquoteAmount.
    step H as migrateSqrtPrice Emigrate.
    step H as migrationBaseAmount EbaseAmount.
    step H as initialSqrtPrice Einitial.
    step H as midPrices Emid.
    step H as chosen Echosen. destruct chosen as [start curve].
    step H as totalDynamicSupply Esupply.
    step H as u Echeck.
    apply instructionParams_fields in H.
    destruct H as (Hc & Hs & _).
    destruct (midPricesOf_three _ _ _ Emid) as (m3 & m2 & m1 & ->).
    destruct (tryMidPrices_first_feasible _ _ _ _ _ _ _ Echosen)
      as [(skipped & mid & rest & r & Hsplit & Hsk & Hmid & Hr & Hst & Hcv)
         | (_ & _ & Hcv)].
    + destruct (getTwoCurve_feasible _ _ _ _ _ _ Hmid Hr) as (Hok & _).
      do 11 eexists.
      repeat split; try eassumption.
      * rewrite Hs. exact Hst.
      * rewrite Hc. exact Hcv.
    + rewrite Hcv, getTotalSupplyFromCurve_empty in Esupply.
      discriminate.
Qed.

End Construction.

(** ** Evaluations on the models *)



(** With no leftover to absorb the two units of precision loss, the same
    two-segment request is refused by the verification pass. *)
Example twoSegments_without_leftover_refused :
  buildCurveWithTwoSegments (Requests.twoSegments 0)
  = Err "leftOverDelta must be less than totalLeftover".
Proof. vm_compute. reflexivity. Qed.


(** In the two-segment request the first candidate is skipped for a
    negative solved liquidity and the second is adopted. *)
Lemma two_segments_first_feasible_candidate_witness :
  exists cfg mig init swap threshold m3 m2 m1 skipped mid rest r,
    buildCurveWithTwoSegments (Requests.twoSegments 1000) = Ok cfg
    /\ midPricesOf mig init = Ok [m3; m2; m1]
    /\ [m3; m2; m1] = skipped ++ mid :: rest
    /\ Forall (fun m => solvedNegative mig m init swap threshold = true) skipped
    /\ solvedNegative mig mid init swap threshold = false
    /\ getTwoCurve mig mid init swap threshold = Ok r
    /\ cr_isOk r = true
    /\ cfg_sqrtStartPrice cfg = cr_sqrtStartPrice r
    /\ cfg_curve cfg = cr_curve r.
Proof.
  destruct (buildCurveWithTwoSegments (Requests.twoSegments 1000))
    as [cfg | msg] eqn:E; [| vm_compute in E; discriminate].
  destruct (proj2 two_segments_first_feasible_candidate _ cfg E)
    as (mig & init & swap & th & m3 & m2 & m1 & skipped & mid & rest & r & H).
  exists cfg, mig, init, swap, th, m3, m2, m1, skipped, mid, rest, r.
  split; [reflexivity | exact H].
Defined.

Example twoSegments_skips_first_candidate :
  midPricesOf 18446744073709551616 2608763565066556442
  = Ok [4254083116017311842; 11312236390588910779; 6937088282096523982]
  /\ solvedNegative 18446744073709551616 4254083116017311842
       2608763565066556442 799999000000000 200000000000000 = true
  /\ solvedNegative 18446744073709551616 11312236390588910779
       2608763565066556442 799999000000000 200000000000000 = false
  /\ (exists cfg,
         buildCurveWithTwoSegments (Requests.twoSegments 1000) = Ok cfg
         /\ cfg_sqrtStartPrice cfg = 2608763565066556442
         /\ map sqrtPrice (cfg_curve cfg)
            = [11312236390588910779; 18446744073709551616]).
Proof.
  split; [vm_compute; reflexivity |].
  split; [vm_compute; reflexivity |].
  split; [vm_compute; reflexivity |].
  eexists. split; [vm_compute; reflexivity |].
  split; reflexivity.
Qed.

Lemma getTokenomics_conserves_supply_witness :
  exists r,
    getTokenomics (D_ofZ 5000) (D_ofZ 1000000) 100000000 0 1000000000 = Ok r
    /\ bondingCurveSupply r + migrationSupply r + leftoverSupply r
       + lockedVestingSupply r = 1000000000.
Proof.
  destruct (getTokenomics (D_ofZ 5000) (D_ofZ 1000000) 100000000 0 1000000000)
    as [r | msg] eqn:E; [| vm_compute in E; discriminate].
  exists r. split; [reflexivity |].
  exact (getTokenomics_conserves_supply _ _ _ _ _ r E).
Defined.

(** The parameters of the SDK's default: a 1% base fee and a 15% price
    change give [maxVolatilityAccumulator = 14460000] and
    [variableFeeControl = 956]. *)
Lemma getDynamicFeeParams_surcharge_bound_witness :
  exists r,
    getDynamicFeeParams 100 1500 = Ok r
    /\ 100 * ((variableFeeControl r
               * (maxVolatilityAccumulator r * binStep r) ^ 2 + 99999999999)
              / 100000000000)
       <= 20 * bpsToFeeNumerator 100.
Proof.
  destruct (getDynamicFeeParams 100 1500) as [r | msg] eqn:E;
    [| vm_compute in E; discriminate].
  exists r. split; [reflexivity |].
  assert (H0 : 0 <= bpsToFeeNumerator 100) by (vm_compute; discriminate).
  exact (proj1 (getDynamicFeeParams_surcharge_bound 100 1500 r H0 E)).
Defined.

Example getDynamicFeeParams_default :
  getDynamicFeeParams 100 1500
  = Ok {| binStep := 1;
          binStepU128 := 1844674407370955;
          filterPeriod := 10;
          decayPeriod := 120;
          reductionFactor := 5000;
          maxVolatilityAccumulator := 14460000;
          variableFeeControl := 956 |}.
Proof. vm_compute. reflexivity. Qed.

(** Claim C4 at its failing inputs.  A flat schedule returns before any
    bound is looked at: 10000 basis points come back as a cliff numerator
    of 1,000,000,000, above [MAX_FEE_NUMERATOR], and 0 basis points as 0,
    below [MIN_FEE_NUMERATOR]; a decaying schedule from 10 to 5 basis
    points comes back with 1,000,000, below [MIN_FEE_NUMERATOR]. *)
Theorem getBaseFeeParams_scheduler_out_of_bounds :
  (exists fee,
      getBaseFeeParams (Requests.flatFee 10000) 9 Slot = Ok fee
      /\ MAX_FEE_NUMERATOR < cliffFeeNumerator fee)
  /\ (exists fee,
         getBaseFeeParams (Requests.flatFee 0) 9 Slot = Ok fee
         /\ cliffFeeNumerator fee < MIN_FEE_NUMERATOR)
  /\ (exists fee,
         getBaseFeeParams
           {| bfp_baseFeeMode := FeeSchedulerExponential;
              bfp_rateLimiterParam := None;
              bfp_feeSchedulerParam :=
                Some {| fs_startingFeeBps := 10; fs_endingFeeBps := 5;
                        fs_numberOfPeriod := 5; fs_totalDuration := 100 |} |}
           9 Slot = Ok fee
         /\ cliffFeeNumerator fee < MIN_FEE_NUMERATOR).
Proof.
  split; [| split]; eexists; (split; [vm_compute; reflexivity |]);
    vm_compute; reflexivity.
Qed.

(** ** Square-root price round trip

    [getSqrtPriceFromPrice] followed by [getPriceFromSqrtPrice], run on the
    model of decimal.js.  Every rounded operation is followed through the
    real numbers that the decimals denote. *)

Section SqrtPriceRoundTrip.
Import DecimalJs RoundTrip.

(** [digits] counts the decimal digits of a positive coefficient. *)
Lemma digits_fuel_spec :
  forall (fuel : nat) (c : Z),
    0 < c < 2 ^ Z.of_nat fuel ->
    10 ^ (digits_fuel fuel c - 1) <= c < 10 ^ digits_fuel fuel c
    /\ 1 <= digits_fuel fuel c.
Proof.
  induction fuel as [| f IH]; intros c Hc.
  - simpl in Hc. lia.
  - cbn [digits_fuel]. destruct (c <? 10) eqn:E.
    + apply Z.ltb_lt in E. simpl. lia.
    + apply Z.ltb_ge in E.
      assert (Hq : 0 < c / 10 < 2 ^ Z.of_nat f).
      { split.
        - apply Z.div_str_pos. lia.
        - apply Z.div_lt_upper_bound; [lia |].
          rewrite Nat2Z.inj_succ, Z.pow_succ_r in Hc by lia. lia. }
      destruct (IH _ Hq) as [[Hlo Hhi] Hd].
      set (d := digits_fuel f (c / 10)) in *.
      replace (1 + d - 1) with (Z.succ (d - 1)) by lia.
      replace (1 + d) with (Z.succ d) by lia.
      rewrite !Z.pow_succ_r by lia.
      pose proof (Z.div_mod c 10 ltac:(lia)) as Hdm.
      pose proof (Z.mod_pos_bound c 10 ltac:(lia)) as Hm.
      lia.
Qed.

Lemma digits_spec :
  forall c : Z, 0 < c ->
    10 ^ (digits c - 1) <= c < 10 ^ digits c /\ 1 <= digits c.
Proof.
  intros c Hc. unfold digits. apply digits_fuel_spec.
  split; [assumption |].
  rewrite Nat2Z.inj_succ, Z2Nat.id by apply Z.log2_nonneg.
  apply Z.log2_spec. assumption.
Qed.

(** Rounding moves a positive coefficient by at most half a unit of the
    twentieth digit. *)
Lemma round_coefficient :
  forall (c e : Z), 0 < c ->
    exists c' k,
      round false c e = Fin false c' (e + k)
      /\ 0 <= k /\ 0 < c'
      /\ 20000000000000000000 * Z.abs (c' * 10 ^ k - c) <= c.
Proof.
  intros c e Hc. unfold round.
  destruct (digits_spec c Hc) as [[Hlo Hhi] Hd].
  set (d := digits c) in *.
  destruct (d <=? precision) eqn:E.
  - exists c, 0. rewrite Z.add_0_r.
    split; [reflexivity |]. split; [lia |]. split; [lia |].
    rewrite Z.pow_0_r, Z.mul_1_r, Z.sub_diag. simpl. lia.
  - apply Z.leb_gt in E. unfold precision in *.
    set (k := d - 20) in *.
    assert (Hk : 0 < k) by lia.
    assert (Hp : 0 < 10 ^ k) by (apply Z.pow_pos_nonneg; lia).
    pose proof (Z.div_mod c (10 ^ k) ltac:(lia)) as Hdm.
    pose proof (Z.mod_pos_bound c (10 ^ k) Hp) as Hm.
    set (q := c / 10 ^ k) in *. set (r := c mod 10 ^ k) in *.
    assert (Hc19 : 10 ^ 19 * 10 ^ k <= c).
    { rewrite <- Z.pow_add_r by lia. replace (19 + k) with (d - 1) by lia.
      exact Hlo. }
    assert (Hq : 10 ^ 19 <= q).
    { unfold q. apply Z.div_le_lower_bound; lia. }
    exists (if 2 * r >=? 10 ^ k then q + 1 else q), k.
    split; [reflexivity |]. split; [lia |].
    change (10 ^ 19) with 10000000000000000000 in *.
    destruct (2 * r >=? 10 ^ k) eqn:Er.
    + rewrite Z.geb_le in Er. split; [lia |].
      replace ((q + 1) * 10 ^ k - c) with (10 ^ k - r) by lia.
      rewrite Z.abs_eq by lia. lia.
    + rewrite Z.geb_leb in Er. apply Z.leb_gt in Er. split; [lia |].
      replace (q * 10 ^ k - c) with (- r) by lia.
      rewrite Z.abs_opp, Z.abs_eq by lia. lia.
Qed.

Local Open Scope R_scope.

Lemma powerRZ_10_pos : forall e : Z, 0 < powerRZ 10 e.
Proof. intros e. apply powerRZ_lt. lra. Qed.

Lemma powerRZ_10_nonneg :
  forall k : Z, (0 <= k)%Z -> powerRZ 10 k = IZR (10 ^ k).
Proof.
  intros k Hk. rewrite <- (Z2Nat.id k Hk) at 2.
  rewrite <- pow_IZR. rewrite <- (Z2Nat.id k Hk) at 1.
  rewrite <- pow_powerRZ. reflexivity.
Qed.

Lemma powerRZ_10_add :
  forall a b : Z, powerRZ 10 (a + b) = powerRZ 10 a * powerRZ 10 b.
Proof. intros a b. apply powerRZ_add. lra. Qed.

(** Relative errors are kept by a non-negative factor. *)
Lemma near_scale :
  forall t x c p : R,
    0 <= p -> (1 - t) * c <= x <= (1 + t) * c -> near t (x * p) (c * p).
Proof.
  intros t x c p Hp [Hlo Hhi]. unfold near. split.
  - replace ((1 - t) * (c * p)) with ((1 - t) * c * p) by ring.
    apply Rmult_le_compat_r; assumption.
  - replace ((1 + t) * (c * p)) with ((1 + t) * c * p) by ring.
    apply Rmult_le_compat_r; assumption.
Qed.

(** The same in real numbers: a rounded value is within [halfUlp] of the
    exact one. *)
Lemma round_near :
  forall (c e : Z), (0 < c)%Z ->
    exists c' e',
      round false c e = Fin false c' e'
      /\ (0 < c')%Z
      /\ near halfUlp (valueR (Fin false c' e')) (IZR c * powerRZ 10 e).
Proof.
  intros c e Hc.
  destruct (round_coefficient c e Hc) as (c' & k & Hr & Hk & Hc' & Hb).
  exists c', (e + k)%Z. split; [exact Hr |]. split; [exact Hc' |].
  unfold valueR. cbn [signed].
  rewrite powerRZ_10_add, (powerRZ_10_nonneg k Hk).
  replace (IZR c' * (powerRZ 10 e * IZR (10 ^ k)))
    with (IZR c' * IZR (10 ^ k) * powerRZ 10 e) by ring.
  apply near_scale; [left; apply powerRZ_10_pos |].
  apply IZR_le in Hb. rewrite mult_IZR, abs_IZR, minus_IZR, mult_IZR in Hb.
  assert (HC : 0 < IZR c) by (apply IZR_lt; assumption).
  set (C := IZR c) in *. set (X := IZR c' * IZR (10 ^ k)) in *.
  unfold halfUlp.
  assert (Habs : Rabs (X - C) <= C * / 20000000000000000000).
  { apply Rmult_le_reg_l with 20000000000000000000; [lra |].
    replace (20000000000000000000 * (C * / 20000000000000000000)) with C
      by (field; lra).
    exact Hb. }
  pose proof (Rle_abs (X - C)) as H1.
  pose proof (Rle_abs (- (X - C))) as H2.
  rewrite Rabs_Ropp in H2. lra.
Qed.

Lemma value_pos :
  forall c e : Z, (0 < c)%Z -> 0 < valueR (Fin false c e).
Proof.
  intros c e Hc. unfold valueR. cbn [signed].
  apply Rmult_lt_0_compat; [apply IZR_lt; assumption | apply powerRZ_10_pos].
Qed.

(** Relative errors compose along a chain and across a product. *)
Lemma near_trans :
  forall t1 t2 x y z : R,
    0 <= t1 <= 1 -> 0 <= t2 <= 1 -> 0 <= z ->
    near t1 x y -> near t2 y z -> near (t1 + t2 + t1 * t2) x z.
Proof.
  intros t1 t2 x y z H1 H2 Hz [Hxl Hxh] [Hyl Hyh]. unfold near. split.
  - apply Rle_trans with ((1 - t1) * y); [| assumption].
    apply Rle_trans with ((1 - t1) * ((1 - t2) * z)).
    + assert (0 <= t1 * t2 * z)
        by (apply Rmult_le_pos; [apply Rmult_le_pos |]; lra).
      nra.
    + apply Rmult_le_compat_l; [lra | assumption].
  - apply Rle_trans with ((1 + t1) * y); [assumption |].
    apply Rle_trans with ((1 + t1) * ((1 + t2) * z)).
    + apply Rmult_le_compat_l; [lra | assumption].
    + right. ring.
Qed.

Lemma near_mul :
  forall t1 t2 x1 y1 x2 y2 : R,
    0 <= t1 <= 1 -> 0 <= t2 <= 1 -> 0 <= y1 -> 0 <= y2 ->
    near t1 x1 y1 -> near t2 x2 y2 ->
    near (t1 + t2 + t1 * t2) (x1 * x2) (y1 * y2).
Proof.
  intros t1 t2 x1 y1 x2 y2 H1 H2 Hy1 Hy2 [Hl1 Hh1] [Hl2 Hh2].
  assert (G1 : 0 <= (1 - t1) * y1) by (apply Rmult_le_pos; lra).
  assert (G2 : 0 <= (1 - t2) * y2) by (apply Rmult_le_pos; lra).
  unfold near. split.
  - apply Rle_trans with ((1 - t1) * y1 * ((1 - t2) * y2)).
    + assert (0 <= t1 * t2 * (y1 * y2))
        by (apply Rmult_le_pos; [apply Rmult_le_pos | apply Rmult_le_pos]; lra).
      nra.
    + apply Rmult_le_compat; assumption.
  - apply Rle_trans with ((1 + t1) * y1 * ((1 + t2) * y2)).
    + apply Rmult_le_compat; lra.
    + right. ring.
Qed.

Lemma near_weaken :
  forall t t' x y : R, t <= t' -> 0 <= y -> near t x y -> near t' x y.
Proof.
  intros t t' x y Ht Hy [Hl Hh]. unfold near.
  assert (0 <= (t' - t) * y) by (apply Rmult_le_pos; lra).
  split; nra.
Qed.

Lemma near_nonneg :
  forall t x y : R, 0 <= t <= 1 -> 0 <= y -> near t x y -> 0 <= x.
Proof.
  intros t x y Ht Hy [Hl _].
  apply Rle_trans with ((1 - t) * y); [apply Rmult_le_pos; lra | assumption].
Qed.

(** The product, the quotient and the square root of positive decimals
    are positive decimals within the error of their rounding. *)
Lemma mul_near :
  forall c1 e1 c2 e2 : Z, (0 < c1)%Z -> (0 < c2)%Z ->
    exists c e,
      mul (Fin false c1 e1) (Fin false c2 e2) = Fin false c e
      /\ (0 < c)%Z
      /\ near halfUlp (valueR (Fin false c e))
           (valueR (Fin false c1 e1) * valueR (Fin false c2 e2)).
Proof.
  intros c1 e1 c2 e2 H1 H2. cbn [mul xorb].
  destruct (round_near (c1 * c2) (e1 + e2) ltac:(lia)) as (c & e & Hr & Hc & Hn).
  exists c, e. split; [exact Hr |]. split; [exact Hc |].
  unfold valueR at 2 3. cbn [signed].
  replace (IZR c1 * powerRZ 10 e1 * (IZR c2 * powerRZ 10 e2))
    with (IZR (c1 * c2) * powerRZ 10 (e1 + e2))
    by (rewrite mult_IZR, powerRZ_10_add; ring).
  exact Hn.
Qed.

Lemma div_near :
  forall c1 e1 c2 e2 : Z, (0 < c1)%Z -> (0 < c2)%Z ->
    exists c e,
      div (Fin false c1 e1) (Fin false c2 e2) = Fin false c e
      /\ (0 < c)%Z
      /\ near quotientError (valueR (Fin false c e))
           (valueR (Fin false c1 e1) / valueR (Fin false c2 e2)).
Proof.
  intros c1 e1 c2 e2 H1 H2. cbn [div xorb].
  assert (E2 : (c2 =? 0)%Z = false) by (apply Z.eqb_neq; lia).
  rewrite E2.
  destruct (digits_spec c1 H1) as [[Hlo1 Hhi1] Hd1].
  destruct (digits_spec c2 H2) as [[Hlo2 Hhi2] Hd2].
  set (d1 := digits c1) in *. set (d2 := digits c2) in *.
  set (K := Z.max 0 (precision + 2 + d2 - d1)).
  assert (HK : (0 <= K)%Z) by (unfold K; lia).
  assert (HK' : (22 + d2 - d1 <= K)%Z) by (unfold K, precision; lia).
  set (q := (c1 * 10 ^ K / c2)%Z).
  assert (HpK : (0 < 10 ^ K)%Z) by (apply Z.pow_pos_nonneg; lia).
  assert (Hbig : (c2 * 10 ^ 21 <= c1 * 10 ^ K)%Z).
  { apply Z.le_trans with (10 ^ d2 * 10 ^ 21)%Z.
    - apply Z.mul_le_mono_nonneg_r; lia.
    - rewrite <- Z.pow_add_r by lia.
      apply Z.le_trans with (10 ^ (d1 - 1) * 10 ^ K)%Z.
      + rewrite <- Z.pow_add_r by lia.
        apply Z.pow_le_mono_r; lia.
      + apply Z.mul_le_mono_nonneg_r; lia. }
  assert (Hq : (10 ^ 21 <= q)%Z).
  { unfold q. apply Z.div_le_lower_bound; lia. }
  assert (Hq0 : (0 < q)%Z)
    by (change (10 ^ 21)%Z with 1000000000000000000000%Z in Hq; lia).
  destruct (round_near q (e1 - e2 - K) Hq0) as (c & e & Hr & Hc & Hn).
  exists c, e. split; [exact Hr |]. split; [exact Hc |].
  (* the exact quotient against its integer part *)
  pose proof (Z.div_mod (c1 * 10 ^ K) c2 ltac:(lia)) as Hdm.
  pose proof (Z.mod_pos_bound (c1 * 10 ^ K) c2 H2) as Hm.
  fold q in Hdm. set (r := ((c1 * 10 ^ K) mod c2)%Z) in *.
  assert (HC2 : 0 < IZR c2) by (apply IZR_lt; assumption).
  assert (HQ : 1000000000000000000000 <= IZR q).
  { apply IZR_le in Hq. exact Hq. }
  assert (Hex : IZR c1 * IZR (10 ^ K) = IZR c2 * IZR q + IZR r).
  { rewrite <- !mult_IZR, <- plus_IZR. f_equal. exact Hdm. }
  assert (Hr0 : 0 <= IZR r < IZR c2).
  { split; [apply IZR_le | apply IZR_lt]; lia. }
  set (E := IZR c1 * IZR (10 ^ K) / IZR c2).
  assert (HE : IZR q <= E < IZR q + 1).
  { unfold E. rewrite Hex. split.
    - apply Rmult_le_reg_r with (IZR c2); [assumption |].
      replace ((IZR c2 * IZR q + IZR r) / IZR c2 * IZR c2)
        with (IZR c2 * IZR q + IZR r) by (field; lra).
      nra.
    - apply Rmult_lt_reg_r with (IZR c2); [assumption |].
      replace ((IZR c2 * IZR q + IZR r) / IZR c2 * IZR c2)
        with (IZR c2 * IZR q + IZR r) by (field; lra).
      nra. }
  set (P := powerRZ 10 (e1 - e2 - K)) in *.
  assert (HP : 0 < P) by apply powerRZ_10_pos.
  assert (Hval : valueR (Fin false c1 e1) / valueR (Fin false c2 e2) = E * P).
  { assert (Hpow : P * IZR (10 ^ K) * powerRZ 10 e2 = powerRZ 10 e1).
    { unfold P. rewrite <- (powerRZ_10_nonneg K HK), <- !powerRZ_10_add.
      f_equal. lia. }
    unfold valueR, E. cbn [signed]. rewrite <- Hpow.
    pose proof (powerRZ_10_pos e2) as HB.
    set (B := powerRZ 10 e2) in *. set (Kp := IZR (10 ^ K)) in *.
    field. split; lra. }
  rewrite Hval.
  destruct Hn as [Hnl Hnh]. unfold near, quotientError, halfUlp in *.
  assert (HEP : IZR q * P <= E * P) by (apply Rmult_le_compat_r; lra).
  assert (HEP' : (1 - / 1000000000000000000000) * (E * P) <= IZR q * P).
  { replace ((1 - / 1000000000000000000000) * (E * P))
      with ((1 - / 1000000000000000000000) * E * P) by ring.
    apply Rmult_le_compat_r; [lra |]. lra. }
  assert (HqP : 0 <= IZR q * P) by (apply Rmult_le_pos; lra).
  assert (HEP0 : 0 <= E * P) by lra.
  split.
  - apply Rle_trans with ((1 - / 20000000000000000000) * (IZR q * P));
      [| exact Hnl].
    apply Rle_trans with
      ((1 - / 20000000000000000000) * ((1 - / 1000000000000000000000) * (E * P))).
    + assert (0 <= / 20000000000000000000 * / 1000000000000000000000 * (E * P))
        by (apply Rmult_le_pos; lra).
      lra.
    + apply Rmult_le_compat_l; lra.
  - apply Rle_trans with ((1 + / 20000000000000000000) * (IZR q * P));
      [exact Hnh |].
    apply Rle_trans with ((1 + / 20000000000000000000) * (E * P)).
    + apply Rmult_le_compat_l; lra.
    + assert (0 <= / 1000000000000000000000 * (E * P))
        by (apply Rmult_le_pos; lra).
      lra.
Qed.

Lemma sqrt_near :
  forall c e : Z, (0 < c)%Z ->
    exists c' e',
      sqrt (Fin false c e) = Fin false c' e'
      /\ (0 < c')%Z
      /\ near (3 * halfUlp)
           (valueR (Fin false c' e') * valueR (Fin false c' e'))
           (valueR (Fin false c e)).
Proof.
  intros c e Hc. unfold sqrt, root.
  assert (E0 : (c =? 0)%Z = false) by (apply Z.eqb_neq; lia).
  rewrite E0. change (2 ^ Z.of_nat 1)%Z with 2%Z. cbn [root2].
  destruct (digits_spec c Hc) as [[Hlo Hhi] Hd].
  set (d := digits c) in *.
  set (j0 := Z.max 0 (2 * (precision + 2) - d)).
  set (j := (j0 + (e - j0) mod 2)%Z).
  pose proof (Z.mod_pos_bound (e - j0) 2 ltac:(lia)) as Hm.
  assert (Hj0 : (0 <= j0)%Z) by (unfold j0; lia).
  assert (Hj0' : (44 - d <= j0)%Z) by (unfold j0, precision; lia).
  assert (Hj : (j0 <= j)%Z) by (unfold j; lia).
  set (N := (c * 10 ^ j)%Z).
  assert (HN : (10 ^ 43 <= N)%Z).
  { unfold N. apply Z.le_trans with (10 ^ (d - 1) * 10 ^ j)%Z.
    - rewrite <- Z.pow_add_r by lia. apply Z.pow_le_mono_r; lia.
    - apply Z.mul_le_mono_nonneg_r; [apply Z.pow_nonneg; lia | lia]. }
  assert (HN0 : (0 <= N)%Z).
  { apply Z.le_trans with (10 ^ 43)%Z; [| exact HN].
    apply Z.pow_nonneg. lia. }
  pose proof (Z.sqrt_spec N HN0) as Hs. cbv zeta in Hs.
  set (r := Z.sqrt N) in *.
  change (10 ^ 43)%Z
    with 10000000000000000000000000000000000000000000%Z in HN.
  assert (Hrn : (0 <= r)%Z) by apply Z.sqrt_nonneg.
  assert (Hr : (1000000000000000000000 <= r)%Z).
  { destruct (Z.le_gt_cases 1000000000000000000000 r) as [H | H];
      [exact H | exfalso].
    assert (Z.succ r * Z.succ r
            <= 1000000000000000000000 * 1000000000000000000000)%Z
      by (apply Z.mul_le_mono_nonneg; lia).
    lia. }
  assert (Hr0 : (0 < r)%Z) by lia.
  set (h := ((e - j) / 2)%Z).
  assert (Hh : (e - j = h + h)%Z).
  { unfold h. assert (Hmod : ((e - j) mod 2 = 0)%Z).
    { unfold j. replace (e - (j0 + (e - j0) mod 2))%Z
        with ((e - j0) - (e - j0) mod 2)%Z by lia.
      rewrite Zminus_mod, Z.mod_mod, Z.sub_diag by lia. reflexivity. }
    pose proof (Z.div_mod (e - j) 2 ltac:(lia)). lia. }
  destruct (round_near r h Hr0) as (c' & e' & Hrd & Hc' & Hn).
  exists c', e'. split; [exact Hrd |]. split; [exact Hc' |].
  set (S := valueR (Fin false c' e')) in *.
  set (W := IZR r * powerRZ 10 h) in *.
  assert (HW : 0 < W).
  { unfold W. apply Rmult_lt_0_compat;
      [apply IZR_lt; assumption | apply powerRZ_10_pos]. }
  set (P := powerRZ 10 (e - j)).
  assert (HP : 0 < P) by apply powerRZ_10_pos.
  assert (HWW : W * W = IZR (r * r) * P).
  { unfold W, P. rewrite Hh, powerRZ_10_add, mult_IZR. ring. }
  assert (HV : valueR (Fin false c e) = IZR N * P).
  { unfold valueR, N, P. cbn [signed].
    assert (Hj' : (0 <= j)%Z) by lia.
    rewrite mult_IZR, <- (powerRZ_10_nonneg j Hj').
    replace e with (j + (e - j))%Z at 1 by lia.
    rewrite powerRZ_10_add. ring. }
  rewrite HV.
  assert (Hrr : (r * r <= N /\ 1000000000000000000000 * (N - r * r)
                               <= 2 * N)%Z).
  { split; [lia |]. nia. }
  destruct Hrr as [Hle Hge].
  apply IZR_le in Hle, Hge.
  rewrite !mult_IZR, minus_IZR, mult_IZR in Hge. rewrite mult_IZR in Hle.
  rewrite mult_IZR in HWW.
  assert (HNp : 0 < IZR N) by (apply IZR_lt; lia).
  set (Nr := IZR N) in *. set (rr := IZR r * IZR r) in *.
  assert (Hrr1 : (1 - / 500000000000000000000) * Nr <= rr) by lra.
  destruct Hn as [Hnl Hnh]. unfold halfUlp in *.
  assert (HS : 0 < S) by nra.
  assert (Hlow : (1 - / 20000000000000000000) * W
                 * ((1 - / 20000000000000000000) * W) <= S * S).
  { apply Rmult_le_compat; nra. }
  assert (Hup : S * S <= (1 + / 20000000000000000000) * W
                         * ((1 + / 20000000000000000000) * W)).
  { apply Rmult_le_compat; nra. }
  assert (HNP : 0 < Nr * P) by (apply Rmult_lt_0_compat; assumption).
  assert (HWl : (1 - / 500000000000000000000) * (Nr * P) <= W * W).
  { rewrite HWW.
    replace ((1 - / 500000000000000000000) * (Nr * P))
      with ((1 - / 500000000000000000000) * Nr * P) by ring.
    apply Rmult_le_compat_r; lra. }
  assert (HWu : W * W <= Nr * P).
  { rewrite HWW. apply Rmult_le_compat_r; lra. }
  unfold near. split; nra.
Qed.

(** [floor] and the conversion to an integer lose less than one unit. *)
Lemma floor_toBN :
  forall c e : Z, (0 < c)%Z ->
    exists s : Z,
      toBN (floor (Fin false c e)) = Ok s
      /\ (0 <= s)%Z
      /\ IZR s <= valueR (Fin false c e) < IZR s + 1.
Proof.
  intros c e Hc. unfold toBN, floor, toInteger.
  destruct (0 <=? e)%Z eqn:Ee.
  - rewrite Ee. apply Z.leb_le in Ee. cbn [signed].
    exists (c * 10 ^ e)%Z. split; [reflexivity |].
    assert (0 < 10 ^ e)%Z by (apply Z.pow_pos_nonneg; lia).
    split; [lia |].
    unfold valueR. cbn [signed].
    rewrite mult_IZR, (powerRZ_10_nonneg e Ee). lra.
  - apply Z.leb_gt in Ee. cbn [andb]. change (0 <=? 0)%Z with true.
    cbn [signed]. rewrite Z.pow_0_r, Z.mul_1_r.
    set (m := (10 ^ (- e))%Z).
    assert (Hm : (0 < m)%Z) by (apply Z.pow_pos_nonneg; lia).
    exists (c / m)%Z. split; [reflexivity |].
    pose proof (Z.div_mod c m ltac:(lia)) as Hdm.
    pose proof (Z.mod_pos_bound c m Hm) as Hmb.
    split; [apply Z.div_pos; lia |].
    unfold valueR. cbn [signed].
    assert (HM : powerRZ 10 e = / IZR m).
    { unfold m. rewrite <- powerRZ_10_nonneg by lia.
      apply Rmult_eq_reg_r with (powerRZ 10 (- e));
        [| apply Rgt_not_eq, powerRZ_10_pos].
      rewrite <- powerRZ_10_add, Rinv_l
        by (apply Rgt_not_eq, powerRZ_10_pos).
      replace (e + - e)%Z with 0%Z by lia. reflexivity. }
    rewrite HM.
    assert (HmR : 0 < IZR m) by (apply IZR_lt; assumption).
    assert (Hc' : IZR c = IZR m * IZR (c / m) + IZR (c mod m)).
    { rewrite <- mult_IZR, <- plus_IZR. f_equal. exact Hdm. }
    assert (Hr : 0 <= IZR (c mod m) < IZR m).
    { split; [apply IZR_le | apply IZR_lt]; lia. }
    rewrite Hc'. set (q := IZR (c / m)) in *. set (r := IZR (c mod m)) in *.
    split.
    + apply Rmult_le_reg_r with (IZR m); [assumption |].
      replace ((IZR m * q + r) * / IZR m * IZR m) with (IZR m * q + r)
        by (field; lra).
      nra.
    + apply Rmult_lt_reg_r with (IZR m); [assumption |].
      replace ((IZR m * q + r) * / IZR m * IZR m) with (IZR m * q + r)
        by (field; lra).
      nra.
Qed.

(** The powers that the two functions take: the decimal factor for token
    decimals between 6 and 9, [2^64] and [2^128]; the last one does not fit
    into 20 digits. *)
Lemma pow10_value :
  forall k : Z, (-3 <= k <= 3)%Z ->
    exists ck ek,
      pow (lit 10 0) (lit k 0) = Fin false ck ek
      /\ (0 < ck)%Z
      /\ valueR (Fin false ck ek) = powerRZ 10 k.
Proof.
  intros k Hk.
  assert (Hcases : (k = -3 \/ k = -2 \/ k = -1 \/ k = 0 \/ k = 1 \/ k = 2
                    \/ k = 3)%Z) by lia.
  destruct Hcases as [-> | [-> | [-> | [-> | [-> | [-> | ->]]]]]];
    eexists; eexists; (split; [vm_compute; reflexivity |]);
    (split; [reflexivity |]);
    unfold valueR; cbn [signed]; simpl powerRZ; field.
Qed.

Lemma two64 : pow (lit 2 0) (lit 64 0) = Fin false 18446744073709551616 0.
Proof. vm_compute. reflexivity. Qed.

Lemma two128 : pow (lit 2 0) (lit 128 0) = Fin false 34028236692093846346 19.
Proof. vm_compute. reflexivity. Qed.

Lemma value_two64 :
  valueR (Fin false 18446744073709551616 0) = 18446744073709551616.
Proof. unfold valueR. cbn [signed]. simpl powerRZ. ring. Qed.

Lemma value_two128 :
  valueR (Fin false 34028236692093846346 19)
  = 340282366920938463460000000000000000000.
Proof.
  unfold valueR. cbn [signed].
  rewrite (powerRZ_10_nonneg 19) by lia.
  rewrite <- mult_IZR. reflexivity.
Qed.

Lemma value_one : forall k, valueR (Fin false 1 k) = powerRZ 10 k.
Proof. intros k. unfold valueR. cbn [signed]. ring. Qed.

Lemma value_int : forall s : Z, valueR (Fin false s 0) = IZR s.
Proof. intros s. unfold valueR. cbn [signed]. simpl powerRZ. ring. Qed.

Lemma halfUlp_range : 0 <= halfUlp <= 1.
Proof. unfold halfUlp. lra. Qed.

Lemma quotientError_range : 0 <= quotientError <= 1.
Proof. unfold quotientError, halfUlp. lra. Qed.

Lemma budget_small :
  0 <= budget1 <= 1 /\ 0 <= budget2 <= 1 /\ 0 <= budget3 <= 1
  /\ 0 <= budget4 <= 1 /\ 0 <= budget5 <= 1.
Proof.
  unfold budget5, budget4, budget3, budget2, budget1, quotientError, halfUlp.
  repeat split; lra.
Qed.

(** All the roundings together stay below [roundTripError]. *)
Lemma budget_closed :
  1 <= two128Ratio
  /\ (1 + budget5) * ((1 + budget3) * two128Ratio) <= 1 + roundTripError
  /\ 1 - roundTripError <= (1 - budget5) * (1 - budget3).
Proof.
  unfold two128Ratio, roundTripError, budget5, budget4, budget3, budget2,
    budget1, quotientError, halfUlp.
  repeat split; lra.
Qed.

(** The round trip on the decimals themselves, for a decimal factor
    [10^k]. *)
Lemma round_trip_k :
  forall (c e k : Z), (0 < c)%Z -> (-3 <= k <= 3)%Z ->
    exists s : Z,
      toBN (floor (mul (sqrt (div (Fin false c e) (Fin false 1 k)))
                       (Fin false 18446744073709551616 0))) = Ok s
      /\ (0 <= s)%Z
      /\ ((0 < s)%Z ->
          (1 - 2 / IZR s - roundTripError) * valueR (Fin false c e)
          <= valueR (mul (div (mul (Fin false s 0) (Fin false s 0))
                              (Fin false 34028236692093846346 19))
                         (pow (lit 10 0) (lit k 0)))
          <= (1 + roundTripError) * valueR (Fin false c e)).
Proof.
  intros c e k Hc Hk.
  destruct (div_near c e 1 k Hc ltac:(lia)) as (ca & ea & Ea & Hca & Na).
  destruct (sqrt_near ca ea Hca) as (cs & es & Es & Hcs & Ns).
  destruct (mul_near cs es 18446744073709551616 0 Hcs ltac:(lia))
    as (cx & ex & Ex & Hcx & Nx).
  destruct (floor_toBN cx ex Hcx) as (s & Hs & Hs0 & HsX).
  exists s. rewrite Ea, Es, Ex. split; [exact Hs |]. split; [exact Hs0 |].
  intros Hspos.
  destruct (mul_near s 0 s 0 Hspos Hspos) as (cm & em & Em & Hcm & Nm).
  destruct (div_near cm em 34028236692093846346 19 Hcm ltac:(lia))
    as (cl & el & El & Hcl & Nl).
  destruct (pow10_value k Hk) as (ck & ek & Ek & Hck & Vk).
  destruct (mul_near cl el ck ek Hcl Hck) as (cp & ep & Ep & Hcp & Np).
  rewrite Em, El, Ek, Ep.
  rewrite value_one in Na. rewrite value_two64 in Nx.
  rewrite !value_int in Nm. rewrite value_two128 in Nl. rewrite Vk in Np.
  pose proof (value_pos c e Hc) as HP.
  pose proof (value_pos ca ea Hca) as HA.
  pose proof (value_pos cs es Hcs) as HQ.
  pose proof (value_pos cx ex Hcx) as HX.
  pose proof (value_pos cm em Hcm) as HM.
  pose proof (value_pos cl el Hcl) as HL.
  pose proof (value_pos cp ep Hcp) as HP'.
  pose proof (powerRZ_10_pos k) as HT.
  assert (HS : 1 <= IZR s) by (apply IZR_le; lia).
  set (P := valueR (Fin false c e)) in *.
  set (A := valueR (Fin false ca ea)) in *.
  set (Q := valueR (Fin false cs es)) in *.
  set (X := valueR (Fin false cx ex)) in *.
  set (M := valueR (Fin false cm em)) in *.
  set (L := valueR (Fin false cl el)) in *.
  set (P' := valueR (Fin false cp ep)) in *.
  set (T := powerRZ 10 k) in *.
  set (S := IZR s) in *.
  set (B := 18446744073709551616) in *.
  set (R128 := 340282366920938463460000000000000000000) in *.
  assert (HB : 0 < B) by (unfold B; lra).
  assert (HR : 0 < R128) by (unfold R128; lra).
  destruct budget_small as (Ht1 & Ht2 & Ht3 & Ht4 & Ht5).
  pose proof halfUlp_range as Hu. pose proof quotientError_range as Htd.
  assert (H3u : 0 <= 3 * halfUlp <= 1) by (unfold halfUlp; lra).
  assert (HPT : 0 < P / T) by (apply Rdiv_lt_0_compat; assumption).
  assert (HBB : 0 < B * B) by (apply Rmult_lt_0_compat; assumption).
  set (G := P / T * (B * B)).
  assert (HG : 0 < G) by (apply Rmult_lt_0_compat; assumption).
  (* the square of the price before the floor *)
  assert (NX : near budget3 (X * X) G).
  { assert (N1 : near budget1 (X * X) (Q * Q * (B * B))).
    { replace (Q * Q * (B * B)) with (Q * B * (Q * B)) by ring.
      apply near_mul; try assumption;
        apply Rmult_le_pos; lra. }
    assert (N2 : near (3 * halfUlp) (Q * Q * (B * B)) (A * (B * B))).
    { apply near_scale; [lra | exact Ns]. }
    assert (N3 : near quotientError (A * (B * B)) G).
    { apply near_scale; [lra | exact Na]. }
    assert (N12 : near budget2 (X * X) (A * (B * B))).
    { apply (near_trans budget1 (3 * halfUlp) _ (Q * Q * (B * B)));
        try assumption.
      apply Rmult_le_pos; lra. }
    apply (near_trans budget2 quotientError _ (A * (B * B)));
      try assumption.
    lra. }
  (* the price read back, against the square of the integer *)
  set (TR := T / R128).
  assert (HTR : 0 < TR) by (apply Rdiv_lt_0_compat; assumption).
  assert (NP : near budget5 P' (S * S * TR)).
  { assert (N4 : near quotientError (L * T) (M * TR)).
    { replace (M * TR) with (M / R128 * T) by (unfold TR; field; lra).
      apply near_scale; [lra | exact Nl]. }
    assert (N5 : near halfUlp (M * TR) (S * S * TR)).
    { apply near_scale; [lra | exact Nm]. }
    assert (N45 : near budget4 P' (M * TR)).
    { apply (near_trans halfUlp quotientError _ (L * T)); try assumption.
      apply Rmult_le_pos; lra. }
    apply (near_trans budget4 halfUlp _ (M * TR)); try assumption.
    apply Rmult_le_pos; [apply Rmult_le_pos |]; lra. }
  assert (HGT : G * TR = two128Ratio * P).
  { unfold G, TR, two128Ratio. fold B. fold R128. field. split; lra. }
  destruct budget_closed as (Hrho & Khi & Klo).
  destruct NX as [NXl NXh]. destruct NP as [NPl NPh].
  destruct HsX as [HsXl HsXh].
  assert (HSS : S * S <= X * X) by (apply Rmult_le_compat; lra).
  split.
  - (* lower bound *)
    destruct (Rle_lt_dec 2 S) as [H2 | H2].
    + assert (Hfl : (1 - 2 / S) * (X * X) <= S * S).
      { assert (HXX : X * X <= (S + 1) * (S + 1))
          by (apply Rmult_le_compat; lra).
        assert (Hd : 0 <= 1 - 2 / S).
        { apply Rmult_le_reg_r with S; [lra |].
          replace ((1 - 2 / S) * S) with (S - 2) by (field; lra). lra. }
        apply Rle_trans with ((1 - 2 / S) * ((S + 1) * (S + 1))).
        - apply Rmult_le_compat_l; assumption.
        - apply Rmult_le_reg_r with S; [lra |].
          replace ((1 - 2 / S) * ((S + 1) * (S + 1)) * S)
            with ((S - 2) * ((S + 1) * (S + 1))) by (field; lra).
          nra. }
      assert (Hd : 0 <= 1 - 2 / S <= 1).
      { split.
        - apply Rmult_le_reg_r with S; [lra |].
          replace ((1 - 2 / S) * S) with (S - 2) by (field; lra). lra.
        - assert (0 < 2 / S) by (apply Rdiv_lt_0_compat; lra). lra. }
      set (D := 1 - 2 / S) in *.
      apply Rle_trans with ((1 - budget5) * (S * S * TR)); [| exact NPl].
      apply Rle_trans with ((1 - budget5) * (D * ((1 - budget3) * G) * TR)).
      * replace ((1 - budget5) * (D * ((1 - budget3) * G) * TR))
          with ((1 - budget5) * (1 - budget3) * D * (G * TR)) by ring.
        rewrite HGT.
        replace (1 - 2 / S - roundTripError) with (D - roundTripError)
          by (unfold D; ring).
        assert (HPD : 0 <= D * P) by (apply Rmult_le_pos; lra).
        assert (Hke : (1 - roundTripError) * (D * P)
                      <= (1 - budget5) * (1 - budget3) * (D * P))
          by (apply Rmult_le_compat_r; assumption).
        assert (Hr : (1 - budget5) * (1 - budget3) * (D * P)
                     <= (1 - budget5) * (1 - budget3) * D * (two128Ratio * P)).
        { replace ((1 - budget5) * (1 - budget3) * D * (two128Ratio * P))
            with ((1 - budget5) * (1 - budget3) * (D * P) * two128Ratio)
            by ring.
          assert (0 <= (1 - budget5) * (1 - budget3) * (D * P)).
          { apply Rmult_le_pos; [apply Rmult_le_pos; lra | assumption]. }
          nra. }
        assert (He : 0 <= roundTripError * ((1 - D) * P)).
        { apply Rmult_le_pos; [unfold roundTripError; lra |].
          apply Rmult_le_pos; lra. }
        nra.
      * apply Rmult_le_compat_l; [lra |].
        apply Rmult_le_compat_r; [lra |].
        apply Rle_trans with (D * (X * X)); [| exact Hfl].
        apply Rmult_le_compat_l; [lra | exact NXl].
    + apply Rle_trans with 0; [| lra].
      assert (HS1 : S = 1).
      { assert (Hz : (s < 2)%Z) by (apply lt_IZR; exact H2).
        unfold S. replace s with 1%Z by lia. reflexivity. }
      rewrite HS1.
      assert (0 <= roundTripError * P)
        by (apply Rmult_le_pos; unfold roundTripError; lra).
      lra.
  - (* upper bound *)
    apply Rle_trans with ((1 + budget5) * (S * S * TR)); [exact NPh |].
    apply Rle_trans with ((1 + budget5) * ((1 + budget3) * G * TR)).
    + apply Rmult_le_compat_l; [lra |].
      apply Rmult_le_compat_r; [lra |].
      apply Rle_trans with (X * X); assumption.
    + replace ((1 + budget5) * ((1 + budget3) * G * TR))
        with ((1 + budget5) * ((1 + budget3) * two128Ratio) * P)
        by (rewrite <- (Rmult_assoc (1 + budget5)), Rmult_assoc, Rmult_assoc;
            rewrite <- HGT; ring).
      apply Rmult_le_compat_r; lra.
Qed.

(** Claim C6, amended.  For every positive price and token decimals between
    6 and 9, [getSqrtPriceFromPrice] returns a non-negative integer [s],
    and when [s] is positive the price that [getPriceFromSqrtPrice] reads
    back from [s] lies between [(1 - 2/s - 10^-18)] and [(1 + 10^-18)]
    times the original price: the relative error is at most that of one
    unit of the square-root price, lost by the floor, and [10^-18], lost by
    the 20 significant digits of decimal.js. *)
Theorem sqrt_price_round_trip :
  forall (c e a b : Z),
    (0 < c)%Z -> (6 <= a <= 9)%Z -> (6 <= b <= 9)%Z ->
    exists s : Z,
      getSqrtPriceFromPrice (Fin false c e) a b = Ok s
      /\ (0 <= s)%Z
      /\ ((0 < s)%Z ->
          (1 - 2 / IZR s - roundTripError) * valueR (Fin false c e)
          <= valueR (getPriceFromSqrtPrice s a b)
          <= (1 + roundTripError) * valueR (Fin false c e)).
Proof.
  intros c e a b Hc Ha Hb.
  destruct (round_trip_k c e (a - b) Hc ltac:(lia)) as (s & Hs & Hs0 & Hb').
  exists s. split; [| split; [exact Hs0 |]].
  - unfold getSqrtPriceFromPrice, D_ofZ.
    cbn [BN_ofFixed D_floor D_mul D_sqrt D_div D_lit D_pow decimalJs].
    rewrite two64. exact Hs.
  - intros Hpos. specialize (Hb' Hpos).
    unfold getPriceFromSqrtPrice, D_ofZ.
    cbn [D_mul D_div D_lit D_pow decimalJs].
    rewrite two128.
    assert (Hl : lit s 0 = Fin false s 0).
    { unfold lit. rewrite Z.abs_eq by lia.
      replace (s <? 0)%Z with false by (symmetry; apply Z.ltb_ge; lia).
      reflexivity. }
    rewrite Hl. exact Hb'.
Qed.

(** The bound at the price [3 * 10^10] with token decimals 9 and 9. *)
Lemma sqrt_price_round_trip_witness :
  exists s : Z,
    getSqrtPriceFromPrice (Fin false 3 10) 9 9 = Ok s
    /\ (0 <= s)%Z
    /\ ((0 < s)%Z ->
        (1 - 2 / IZR s - roundTripError) * valueR (Fin false 3 10)
        <= valueR (getPriceFromSqrtPrice s 9 9)
        <= (1 + roundTripError) * valueR (Fin false 3 10)).
Proof.
  apply (sqrt_price_round_trip 3 10 9 9); lia.
Defined.

(** Claim C6 as stated fails at that price: the square-root price has 25
    digits of which decimal.js keeps 20, and the price read back is
    [30000000000.000000001]; its distance [10^-9] to the original exceeds the
    change of the price over one unit of the square-root price,
    [(2 s + 1) / 2^128], which exceeds one unit in the last place of a
    Q64.64 number, [2^-64]. *)
Lemma sqrt_price_round_trip_beyond_ulp :
  getSqrtPriceFromPrice (Fin false 3 10) 9 9 = Ok 3195069796988503020300000%Z
  /\ getPriceFromSqrtPrice 3195069796988503020300000 9 9
     = Fin false 30000000000000000001 (-9)
  /\ ulpQ64
     < (2 * 3195069796988503020300000 + 1)
       / (18446744073709551616 * 18446744073709551616)
     < Rabs (valueR (getPriceFromSqrtPrice 3195069796988503020300000 9 9)
             - valueR (Fin false 3 10)).
Proof.
  split; [vm_compute; reflexivity |].
  assert (E : getPriceFromSqrtPrice 3195069796988503020300000 9 9
              = Fin false 30000000000000000001 (-9))
    by (vm_compute; reflexivity).
  split; [exact E |]. rewrite E.
  assert (V : valueR (Fin false 30000000000000000001 (-9))
              - valueR (Fin false 3 10) = / 1000000000).
  { unfold valueR. cbn [signed]. simpl powerRZ. field. }
  rewrite V. rewrite Rabs_pos_eq by lra.
  unfold ulpQ64. split; lra.
Qed.

End SqrtPriceRoundTrip.
